(** * resource-monitor: a shallow embedding of [main.py]

    The program samples CPU and RAM utilisation once per second, appends
    every sample to a CSV file named after the day, and at 23:59:59
    charts the day, mails chart and log, and removes both files.

    The embedding keeps the program's own vocabulary.  Text is modelled
    character by character ([string]), the file system is a finite map
    from paths to contents, exceptions are values of [exn], and every
    method is a function in a state-and-exception monad over [world].
    Library calls (csv, pandas, psutil, smtplib, matplotlib) are modelled
    by what the program relies on; each model says where it stops. *)

From Stdlib Require Import ZArith NArith QArith Lia Bool List.
From Stdlib Require Import Ascii String DecimalString DecimalN.
From stdpp Require Import base option list strings gmap.

Import ListNotations.
#[local] Open Scope string_scope.
#[local] Open Scope Z_scope.

(* ===================================================================== *)
(** * Text *)
(* ===================================================================== *)

Module Text.

Definition COMMA : ascii := ","%char.
Definition DQUOTE : ascii := ascii_of_nat 34.
Definition CR : ascii := ascii_of_nat 13.
Definition LF : ascii := ascii_of_nat 10.

(** [str.endswith]. *)
Definition endswith (s suffix : string) : bool :=
  let n := String.length s in
  let k := String.length suffix in
  (k <=? n)%nat && String.eqb (substring (n - k) k s) suffix.

(** [sep.join(parts)]. *)
Fixpoint join (sep : string) (parts : list string) : string :=
  match parts with
  | [] => ""
  | [p] => p
  | p :: rest => p ++ sep ++ join sep rest
  end.

Fixpoint existsb_str (p : ascii -> bool) (s : string) : bool :=
  match s with
  | EmptyString => false
  | String c s' => p c || existsb_str p s'
  end.

Fixpoint forallb_str (p : ascii -> bool) (s : string) : bool :=
  match s with
  | EmptyString => true
  | String c s' => p c && forallb_str p s'
  end.

Definition is_digit (c : ascii) : bool :=
  let n := nat_of_ascii c in (48 <=? n)%nat && (n <=? 57)%nat.

(** [str(n)] for a natural number: its decimal digits, "0" for zero. *)
Definition dec (n : N) : string := NilEmpty.string_of_uint (N.to_uint n).

(** [int(s)] for a string of decimal digits; [None] stands for
    [ValueError]. *)
Definition undec (s : string) : option N :=
  match s with
  | EmptyString => None
  | _ => option_map N.of_uint (NilEmpty.uint_of_string s)
  end.

(** The [%02d]-style fields of [strftime]: at least [width] digits. *)
Definition zfill (width : nat) (n : N) : string :=
  let d := dec n in
  string_of_list_ascii (repeat "0"%char (width - String.length d)) ++ d.

(** The first [k] characters and the rest, [None] when [s] is shorter. *)
Fixpoint take_exact (k : nat) (s : string) : option (string * string) :=
  match k with
  | O => Some ("", s)
  | S k' =>
      match s with
      | EmptyString => None
      | String c s' =>
          match take_exact k' s' with
          | Some (a, b) => Some (String c a, b)
          | None => None
          end
      end
  end.

(** Split at the first occurrence of [c]. *)
Fixpoint split_at (c : ascii) (s : string) : string * option string :=
  match s with
  | EmptyString => ("", None)
  | String a s' =>
      if Ascii.eqb a c then ("", Some s')
      else let '(l, r) := split_at c s' in (String a l, r)
  end.

End Text.

(* ===================================================================== *)
(** * Exceptions and Python values *)
(* ===================================================================== *)

(** The exceptions the program can meet.  Nothing in [main.py] catches
    any of them except the [ImportError] of [get_system_info]. *)
Inductive exn : Type :=
| FileNotFoundError (path : string)
| ParserError
| ValueError
| KeyError (key : string)
| ImportError
| SMTPException.

Inductive outcome (A : Type) : Type :=
| Ok (a : A)
| Raise (e : exn).
Arguments Ok {A} a.
Arguments Raise {A} e.

(** Python floats are modelled by exact rationals: rounding is outside
    the model.  [repr] prints the decimal expansion, which is what
    Python prints for the short decimals this program handles (psutil
    rounds its percentages to one decimal place); exponent notation is
    not modelled. *)
Module Float.
Import Text.

Abbreviation pyfloat := Q (only parsing).

Definition digit (d : N) : ascii := ascii_of_N (48 + d).

(** Long division: the digits of [r / den] after the point, at least
    one, until the remainder vanishes or [fuel] digits are out. *)
Fixpoint frac_digits (fuel : nat) (r den : N) : string :=
  match fuel with
  | O => ""
  | S fuel' =>
      let d := ((10 * r) / den)%N in
      let r' := ((10 * r) mod den)%N in
      String (digit d) (if (r' =? 0)%N then "" else frac_digits fuel' r' den)
  end.

Definition repr (x : pyfloat) : string :=
  let n := Z.to_N (Z.abs (Qnum x)) in
  let d := Npos (Qden x) in
  (if Qnum x <? 0 then "-" else "")
    ++ dec (n / d) ++ "." ++ frac_digits 17 (n mod d) d.

(** The decimal literals pandas meets in a log: digits, optionally
    followed by a point and more digits.  [None]: not such a number. *)
Definition parse (s : string) : option pyfloat :=
  match split_at "."%char s with
  | (i, None) =>
      match undec i with
      | Some n => Some (Z.of_N n # 1)
      | None => None
      end
  | (i, Some f) =>
      match undec i, undec f with
      | Some n, Some m =>
          let scale := (10 ^ N.of_nat (String.length f))%N in
          Some (Z.of_N (n * scale + m) # N.succ_pos (N.pred scale))
      | _, _ => None
      end
  end.

(** psutil reports a percentage rounded to one decimal place; a reading
    is given by its number of tenths. *)
Definition of_tenths (k : N) : pyfloat := Z.of_N k # 10.

End Float.

(* ===================================================================== *)
(** * The csv module (writer side) *)
(* ===================================================================== *)

Module Csv.
Import Text.

(** [csv.writer] with the default dialect: a comma as delimiter, the
    double quote as quote character ([DQUOTE]), [QUOTE_MINIMAL], quotes
    doubled inside a quoted field.  A field is quoted when it holds the
    delimiter, the quote character or a character of the line
    terminator; a row that is one empty field is written as two
    quotes. *)
Definition special (lineterminator : string) (c : ascii) : bool :=
  Ascii.eqb c COMMA || Ascii.eqb c DQUOTE
  || existsb_str (Ascii.eqb c) lineterminator.

Fixpoint double_quotes (s : string) : string :=
  match s with
  | EmptyString => ""
  | String c s' =>
      if Ascii.eqb c DQUOTE then String DQUOTE (String DQUOTE (double_quotes s'))
      else String c (double_quotes s')
  end.

Definition field (lineterminator f : string) : string :=
  if existsb_str (special lineterminator) f
  then String DQUOTE (double_quotes f ++ String DQUOTE "")
  else f.

Definition writerow (lineterminator : string) (fields : list string) : string :=
  match fields with
  | [EmptyString] => String DQUOTE (String DQUOTE lineterminator)
  | _ => join (String COMMA "") (map (field lineterminator) fields) ++ lineterminator
  end.

Definition CRLF : string := String CR (String LF "").

(** The characters of timestamps and of printed readings; a field made
    of them is written without quotes. *)
Definition safe (c : ascii) : bool :=
  is_digit c || Ascii.eqb c "-" || Ascii.eqb c " " || Ascii.eqb c ":"
  || Ascii.eqb c ".".

Definition plain (s : string) : Prop := forallb_str safe s = true.

End Csv.

(* ===================================================================== *)
(** * Wall-clock time *)
(* ===================================================================== *)

(** The wall clock is a number of whole seconds of local time since
    1970-01-01 00:00:00; the zone offset is taken to be constant.
    [datetime.now()] reads it, [strftime] prints it through the
    proleptic Gregorian calendar. *)
Module Clock.
Import Text.

Definition DAY : Z := 86400.

Definition date_of (t : Z) : Z := t / DAY.          (* days since the epoch *)
Definition second_of_day (t : Z) : Z := t mod DAY.

(** Day number to (year, month, day). *)
Definition civil_from_days (days : Z) : Z * Z * Z :=
  let z := days + 719468 in
  let era := z / 146097 in
  let doe := z - era * 146097 in
  let yoe := (doe - doe / 1460 + doe / 36524 - doe / 146096) / 365 in
  let doy := doe - (365 * yoe + yoe / 4 - yoe / 100) in
  let mp := (5 * doy + 2) / 153 in
  let d := doy - (153 * mp + 2) / 5 + 1 in
  let m := if mp <? 10 then mp + 3 else mp - 9 in
  let y := yoe + era * 400 in
  (if m <=? 2 then y + 1 else y, m, d).

(** (year, month, day) to day number. *)
Definition days_from_civil (y m d : Z) : Z :=
  let y' := if m <=? 2 then y - 1 else y in
  let era := y' / 400 in
  let yoe := y' - era * 400 in
  let mp := if m <=? 2 then m + 9 else m - 3 in
  let doy := (153 * mp + 2) / 5 + d - 1 in
  let doe := yoe * 365 + yoe / 4 - yoe / 100 + doy in
  era * 146097 + doe - 719468.

Definition is_leap (y : Z) : bool :=
  ((y mod 4 =? 0) && negb (y mod 100 =? 0)) || (y mod 400 =? 0).

Definition days_in_month (y m : Z) : Z :=
  if m =? 2 then (if is_leap y then 29 else 28)
  else if (m =? 4) || (m =? 6) || (m =? 9) || (m =? 11) then 30
  else 31.

Definition zz (width : nat) (x : Z) : string := zfill width (Z.to_N x).

(** [strftime("%Y-%m-%d")]. *)
Definition strftime_date (t : Z) : string :=
  let '(y, m, d) := civil_from_days (date_of t) in
  zz 4 y ++ "-" ++ zz 2 m ++ "-" ++ zz 2 d.

(** [strftime("%H:%M:%S")]. *)
Definition strftime_time (t : Z) : string :=
  let s := second_of_day t in
  zz 2 (s / 3600) ++ ":" ++ zz 2 (s / 60 mod 60) ++ ":" ++ zz 2 (s mod 60).

(** [strftime("%Y-%m-%d %H:%M:%S")]. *)
Definition strftime (t : Z) : string :=
  strftime_date t ++ " " ++ strftime_time t.

End Clock.

(* ===================================================================== *)
(** * pandas: read_csv, to_csv, to_datetime, resample *)
(* ===================================================================== *)

Module Pandas.
Import Text.

(** ** The tokenizer of [read_csv]

    The states of pandas' C tokenizer that the default options can
    reach.  Blank lines are skipped; [\n], [\r\n] and [\r] all end a
    line. *)
Inductive tstate : Type :=
| START_RECORD
| START_FIELD
| IN_FIELD
| IN_QUOTED_FIELD
| QUOTE_IN_QUOTED_FIELD
| EAT_CRNL
| EAT_CRNL_NOP.

Record tok : Type := Tok {
  st : tstate;
  fld : string;                 (* characters of the field being read *)
  rec : list string;            (* fields of the line being read *)
  rows : list (list string)     (* finished lines *)
}.

Definition init : tok := Tok START_RECORD "" [] [].

Definition push_char (c : ascii) (s : tstate) (t : tok) : tok :=
  Tok s (fld t ++ String c "") (rec t) (rows t).
Definition end_field (s : tstate) (t : tok) : tok :=
  Tok s "" (rec t ++ [fld t]) (rows t).
Definition end_line (t : tok) : tok :=
  Tok START_RECORD "" [] (rows t ++ [rec t]).
Definition goto (s : tstate) (t : tok) : tok :=
  Tok s (fld t) (rec t) (rows t).

Definition start_field (t : tok) (c : ascii) : tok :=
  if Ascii.eqb c LF then end_line (end_field START_FIELD t)
  else if Ascii.eqb c CR then end_field EAT_CRNL t
  else if Ascii.eqb c DQUOTE then goto IN_QUOTED_FIELD t
  else if Ascii.eqb c COMMA then end_field START_FIELD t
  else push_char c IN_FIELD t.

Definition start_record (t : tok) (c : ascii) : tok :=
  if Ascii.eqb c LF then goto START_RECORD t
  else if Ascii.eqb c CR then goto EAT_CRNL_NOP t
  else start_field t c.

Definition step (t : tok) (c : ascii) : tok :=
  match st t with
  | START_RECORD => start_record t c
  | START_FIELD => start_field t c
  | IN_FIELD =>
      if Ascii.eqb c LF then end_line (end_field START_FIELD t)
      else if Ascii.eqb c CR then end_field EAT_CRNL t
      else if Ascii.eqb c COMMA then end_field START_FIELD t
      else push_char c IN_FIELD t
  | IN_QUOTED_FIELD =>
      if Ascii.eqb c DQUOTE then goto QUOTE_IN_QUOTED_FIELD t
      else push_char c IN_QUOTED_FIELD t
  | QUOTE_IN_QUOTED_FIELD =>
      if Ascii.eqb c DQUOTE then push_char c IN_QUOTED_FIELD t
      else if Ascii.eqb c COMMA then end_field START_FIELD t
      else if Ascii.eqb c LF then end_line (end_field START_FIELD t)
      else if Ascii.eqb c CR then end_field EAT_CRNL t
      else push_char c IN_FIELD t
  | EAT_CRNL =>
      if Ascii.eqb c LF then end_line t
      else start_record (end_line t) c
  | EAT_CRNL_NOP =>
      if Ascii.eqb c LF then goto START_RECORD t
      else start_record (goto START_RECORD t) c
  end.

Fixpoint run (t : tok) (s : string) : tok :=
  match s with
  | EmptyString => t
  | String c s' => run (step t c) s'
  end.

(** End of input: a pending field and line are closed; an open quote
    is an error. *)
Definition finish (t : tok) : outcome (list (list string)) :=
  match st t with
  | START_RECORD | EAT_CRNL_NOP => Ok (rows t)
  | IN_QUOTED_FIELD => Raise ParserError
  | START_FIELD | IN_FIELD | QUOTE_IN_QUOTED_FIELD =>
      Ok (rows (end_line (end_field START_FIELD t)))
  | EAT_CRNL => Ok (rows (end_line t))
  end.

Definition tokenize (content : string) : outcome (list (list string)) :=
  finish (run init content).

(** ** Frames

    The only frame of the program has the columns
    [names=["Timestamp", "RAM", "CPU"]]: a string and two floats. *)
Definition row : Type := string * Float.pyfloat * Float.pyfloat.
Definition frame : Type := list row.

Definition names : list string := ["Timestamp"; "RAM"; "CPU"].

(** A line of the log as a row of the frame.  A line that is not one
    string and two numbers raises here; pandas would pad it or type
    the column as text and fail when the numbers are used. *)
Definition convert_row (fields : list string) : outcome row :=
  match fields with
  | [ts; ram; cpu] =>
      match Float.parse ram, Float.parse cpu with
      | Some r, Some c => Ok (ts, r, c)
      | _, _ => Raise ParserError
      end
  | _ => Raise ParserError
  end.

Fixpoint convert_rows (lines : list (list string)) : outcome frame :=
  match lines with
  | [] => Ok []
  | l :: rest =>
      match convert_row l with
      | Raise e => Raise e
      | Ok r =>
          match convert_rows rest with
          | Raise e => Raise e
          | Ok rs => Ok (r :: rs)
          end
      end
  end.

(** [pd.read_csv(content, names=[...])] on the content of a file.
    Because the column names are passed and not read from the file, an
    empty file is not an error: it reads as a frame without rows. *)
Definition read_csv (content : string) : outcome frame :=
  match tokenize content with
  | Raise e => Raise e
  | Ok lines => convert_rows lines
  end.

(** [df.to_csv(path, index=False)]: a header line with the column
    names, then the rows, each line ended by [\n]. *)
Definition NL : string := String LF "".

Definition to_csv (df : frame) : string :=
  Csv.writerow NL names
    ++ String.concat ""
         (map (fun '(ts, ram, cpu) =>
                 Csv.writerow NL [ts; Float.repr ram; Float.repr cpu]) df).

(** ** Time series *)

(** [k] digits read as a number. *)
Definition digits (k : nat) (s : string) : option (Z * string) :=
  match take_exact k s with
  | Some (d, rest) =>
      if forallb_str is_digit d
      then option_map (fun n => (Z.of_N n, rest)) (undec d)
      else None
  | None => None
  end.

Definition expect (c : ascii) (s : string) : option string :=
  match s with
  | String a rest => if Ascii.eqb a c then Some rest else None
  | EmptyString => None
  end.

(** [pd.to_datetime(s, format='%Y-%m-%d %H:%M:%S')] on one cell, as
    seconds since the epoch; the fields have the widths [strftime]
    prints.  Anything else is a [ValueError].  The limits of pandas'
    nanosecond timestamps (1677-09-21 to 2262-04-11), beyond which
    pandas raises, are not part of this function. *)
Definition to_datetime (s : string) : outcome Z :=
  let parsed :=
    '(y, s) ← digits 4 s; s ← expect "-" s;
    '(m, s) ← digits 2 s; s ← expect "-" s;
    '(d, s) ← digits 2 s; s ← expect " " s;
    '(hh, s) ← digits 2 s; s ← expect ":" s;
    '(mm, s) ← digits 2 s; s ← expect ":" s;
    '(ss, s) ← digits 2 s;
    match s with
    | EmptyString => Some (y, m, d, hh, mm, ss)
    | _ => None
    end in
  match parsed with
  | Some (y, m, d, hh, mm, ss) =>
      if (1 <=? m) && (m <=? 12) && (1 <=? d) && (d <=? Clock.days_in_month y m)
         && (hh <? 24) && (mm <? 60) && (ss <? 60)
      then Ok (Clock.days_from_civil y m d * Clock.DAY + hh * 3600 + mm * 60 + ss)
      else Raise ValueError
  | None => Raise ValueError
  end.

(** The frame after [df['Timestamp'] = pd.to_datetime(...)] and
    [df.set_index('Timestamp')]: rows keyed by time. *)
Definition series : Type := list (Z * Float.pyfloat * Float.pyfloat).

Fixpoint index_by_time (df : frame) : outcome series :=
  match df with
  | [] => Ok []
  | (ts, ram, cpu) :: rest =>
      match to_datetime ts with
      | Raise e => Raise e
      | Ok t =>
          match index_by_time rest with
          | Raise e => Raise e
          | Ok rs => Ok ((t, ram, cpu) :: rs)
          end
      end
  end.

(** ** [df.resample('1T').mean()]

    The bins are the whole minutes from the minute of the earliest row
    to the minute of the latest one (closed on the left, labelled by
    their start).  Each row adds its values to the sums of its bin and
    one to its count; a bin's mean is sum over count, and NaN ([None])
    when the count is zero. *)
Definition MINUTE : Z := 60.

Definition floor_minute (t : Z) : Z := MINUTE * (t / MINUTE).

Definition times (s : series) : list Z := map (fun r => r.1.1) s.

Definition first_bin (s : series) : Z :=
  floor_minute (foldr Z.min (hd 0 (times s)) (times s)).
Definition last_bin (s : series) : Z :=
  floor_minute (foldr Z.max (hd 0 (times s)) (times s)).

Definition bin_of (origin t : Z) : nat := Z.to_nat ((t - origin) / MINUTE).

Record cell : Type := Cell { sum_ram : Q; sum_cpu : Q; nobs : nat }.

Definition add_row (ram cpu : Q) (c : cell) : cell :=
  Cell (sum_ram c + ram) (sum_cpu c + cpu) (S (nobs c)).

Definition accumulate (origin : Z) (s : series) (acc : list cell) : list cell :=
  fold_left (fun acc '(t, ram, cpu) => alter (add_row ram cpu) (bin_of origin t) acc)
            s acc.

Definition mean_of (total : Q) (n : nat) : option Q :=
  match n with
  | O => None
  | S _ => Some (Qred (total / inject_Z (Z.of_nat n)))
  end.

Definition point : Type := Z * option Q * option Q.

Definition resample_mean (s : series) : list point :=
  match s with
  | [] => []
  | _ =>
      let origin := first_bin s in
      let n := Z.to_nat ((last_bin s - origin) / MINUTE + 1) in
      let acc := accumulate origin s (replicate n (Cell 0 0 0)) in
      imap (fun i c => (origin + MINUTE * Z.of_nat i,
                        mean_of (sum_ram c) (nobs c),
                        mean_of (sum_cpu c) (nobs c))) acc
  end.

End Pandas.

(* ===================================================================== *)
(** * The machine the program runs on *)
(* ===================================================================== *)

(** A MIME message as [send_email] builds it. *)
Inductive part : Type :=
| MIMEText (body : string)
| MIMEImage (filename payload : string)
| MIMEApplication (filename payload : string).

Record message : Type := Message {
  msg_from : string;
  msg_to : string;
  msg_subject : string;
  msg_parts : list part
}.

(** What [platform], [psutil], [cpuinfo] and [GPUtil] report about the
    host.  [gputil = None]: the module is not installed. *)
Record host : Type := Host {
  os_name : string;
  os_release : string;
  os_version : string;
  os_fullname : string;
  mem_total : N;
  cpu_brand : string;
  gputil : option (list string);
  disk_total : N
}.

(** How the [with smtplib.SMTP(...)] block of [send_email] ends.  The
    message is handed over by [send_message]; leaving the block sends
    QUIT, and [smtplib] raises there when the answer is not 221, that
    is after the message has gone out. *)
Inductive session : Type :=
| Delivered                  (* the message went out and the block was left normally *)
| Refused (e : exn)          (* connecting, STARTTLS, login or [send_message]
                                raised [e]: nothing went out *)
| Lost_after_send (e : exn). (* the message went out, then leaving the
                                block raised [e] *)

(** The exception a session ends with, if any. *)
Definition raised (s : session) : option exn :=
  match s with
  | Delivered => None
  | Refused e | Lost_after_send e => Some e
  end.

(** Everything the program cannot decide itself.  The oracles are
    indexed by the number of earlier calls.  The wall clock is the
    local time [datetime.now()] shows: between two looks at it more
    time may have passed than was slept, and it may have been set back
    (the end of daylight saving time, a correction of the clock). *)
Record env : Type := Env {
  getenv : string -> option string;
  the_host : host;
  elapse : nat -> Z;          (* seconds the wall clock has moved, beyond the
                                 time slept, when it is read; negative when
                                 it was set back *)
  cpu_reading : nat -> N;     (* psutil.cpu_percent(), in tenths *)
  ram_reading : nat -> N;     (* psutil.virtual_memory().percent, in tenths *)
  smtp : nat -> session;      (* how each SMTP session ends *)
  savefig : list Pandas.point -> string  (* the image matplotlib writes *)
}.

(** Observable moments of a run, kept to reason about the schedule. *)
Inductive event : Type :=
| Checked (t : Z)     (* the loop compared the clock reading [t] with STOP_TIME *)
| Reported (t : Z).   (* send_email_report was entered at time [t] *)

Record world : Type := World {
  fs : gmap string string;    (* path to content *)
  now : Z;                    (* the wall clock *)
  clock_reads : nat;
  cpu_reads : nat;
  ram_reads : nat;
  sessions : nat;             (* SMTP sessions opened so far *)
  outbox : list message;      (* messages delivered *)
  trace : list event          (* latest first *)
}.

Definition set_fs (f : gmap string string -> gmap string string) (w : world) : world :=
  World (f (fs w)) (now w) (clock_reads w) (cpu_reads w) (ram_reads w)
        (sessions w) (outbox w) (trace w).

Definition log_event (e : event) (w : world) : world :=
  World (fs w) (now w) (clock_reads w) (cpu_reads w) (ram_reads w)
        (sessions w) (outbox w) (e :: trace w).

(** ** The monad: a state that survives exceptions *)

Definition M (A : Type) : Type := world -> outcome A * world.

#[global] Instance M_ret : MRet M := fun A a w => (Ok a, w).
#[global] Instance M_bind : MBind M := fun A B f m w =>
  match m w with
  | (Ok a, w') => f a w'
  | (Raise e, w') => (Raise e, w')
  end.

Definition raise {A : Type} (e : exn) : M A := fun w => (Raise e, w).

(** Entries of the trace: an event, or an event stamped with the clock
    as it stands. *)
Definition observe (e : event) : M unit := fun w => (Ok tt, log_event e w).
Definition observe_now (f : Z -> event) : M unit := fun w =>
  (Ok tt, log_event (f (now w)) w).

(** A library call that touches nothing but may raise. *)
Definition call {A : Type} (o : outcome A) : M A := fun w => (o, w).

(** [for x in xs: body(x)]. *)
Fixpoint for_each {A : Type} (xs : list A) (body : A -> M unit) : M unit :=
  match xs with
  | [] => mret tt
  | x :: rest => body x ;; for_each rest body
  end.

(** The loop variant that threads a value through the iterations. *)
Fixpoint fold_each {A S : Type} (xs : list A) (s : S) (body : S -> A -> M S) : M S :=
  match xs with
  | [] => mret s
  | x :: rest => s' ← body s x; fold_each rest s' body
  end.

Section Machine.
Variable E : env.

(** ** Files *)

(** [open(path, "rb").read()] and what pandas does to open a file. *)
Definition read_file (path : string) : M string := fun w =>
  match fs w !! path with
  | Some content => (Ok content, w)
  | None => (Raise (FileNotFoundError path), w)
  end.

(** [open(path, "a")] then write: the file is created when absent. *)
Definition append_file (path data : string) : M unit := fun w =>
  (Ok tt, set_fs (fun m => <[path := default "" (m !! path) ++ data]> m) w).

(** [open(path, "w")] then write. *)
Definition write_file (path data : string) : M unit := fun w =>
  (Ok tt, set_fs (fun m => <[path := data]> m) w).

(** [os.remove(path)]. *)
Definition os_remove (path : string) : M unit := fun w =>
  match fs w !! path with
  | Some _ => (Ok tt, set_fs (fun m => delete path m) w)
  | None => (Raise (FileNotFoundError path), w)
  end.

(** [os.path.basename]. *)
Fixpoint basename (path : string) : string :=
  match path with
  | EmptyString => ""
  | String c rest =>
      if Ascii.eqb c "/"%char then basename rest
      else if Text.existsb_str (Ascii.eqb "/"%char) rest then basename rest
      else path
  end.

(** ** Time *)

(** [datetime.now()]: the wall clock may have moved since it was last
    looked at. *)
Definition datetime_now : M Z := fun w =>
  let t := now w + elapse E (clock_reads w) in
  (Ok t, World (fs w) t (S (clock_reads w)) (cpu_reads w) (ram_reads w)
               (sessions w) (outbox w) (trace w)).

(** [time.sleep(secs)]: the clock moves on by [secs]; whatever else
    happens to it is counted by [elapse] at the next reading. *)
Definition time_sleep (secs : Z) : M unit := fun w =>
  (Ok tt, World (fs w) (now w + secs) (clock_reads w) (cpu_reads w) (ram_reads w)
                (sessions w) (outbox w) (trace w)).

(** ** psutil *)

Definition psutil_cpu_percent : M Float.pyfloat := fun w =>
  (Ok (Float.of_tenths (cpu_reading E (cpu_reads w))),
   World (fs w) (now w) (clock_reads w) (S (cpu_reads w)) (ram_reads w)
         (sessions w) (outbox w) (trace w)).

Definition psutil_virtual_memory_percent : M Float.pyfloat := fun w =>
  (Ok (Float.of_tenths (ram_reading E (ram_reads w))),
   World (fs w) (now w) (clock_reads w) (cpu_reads w) (S (ram_reads w))
         (sessions w) (outbox w) (trace w)).

(** ** smtplib: the [with] block of connect, STARTTLS, login,
    send_message, and the QUIT on leaving it *)
Definition smtp_deliver (msg : message) : M unit := fun w =>
  let unsent := World (fs w) (now w) (clock_reads w) (cpu_reads w) (ram_reads w)
                      (S (sessions w)) (outbox w) (trace w) in
  let sent := World (fs w) (now w) (clock_reads w) (cpu_reads w) (ram_reads w)
                    (S (sessions w)) (outbox w ++ [msg]) (trace w) in
  match smtp E (sessions w) with
  | Delivered => (Ok tt, sent)
  | Refused e => (Raise e, unsent)
  | Lost_after_send e => (Raise e, sent)
  end.

End Machine.

(* ===================================================================== *)
(** * class UsageMonitor *)
(* ===================================================================== *)

Record UsageMonitor : Type := Monitor {
  email : string;
  password : string;
  recipient_emails : list string;
  today : string
}.

(** A value of the [system_info] dictionary. *)
Inductive pyval : Type :=
| PStr (s : string)
| PList (items : list string).

(** [str(v)] as an f-string inserts it. *)
Definition pystr (v : pyval) : string :=
  match v with
  | PStr s => s
  | PList items =>
      "[" ++ Text.join ", " (map (fun s => "'" ++ s ++ "'") items) ++ "]"
  end.

Definition GIB : positive := 1073741824.   (* 1024 ** 3 *)

Section Program.
Variable E : env.

(** [UsageMonitor(email, password, recipient_emails)]. *)
Definition __init__ (email password : string) (recipient_emails : list string)
  : M UsageMonitor :=
  t ← datetime_now E;
  mret (Monitor email password recipient_emails (Clock.strftime_date t)).

(** The log of the day the monitor believes it is:
    [f'usage_{self.today}.csv']. *)
Definition log_path (self : UsageMonitor) : string :=
  "usage_" ++ today self ++ ".csv".

Definition send_email (self : UsageMonitor) (subject body : string)
    (attachments : list string) : M unit :=
  let msg := Message (email self) (Text.join ", " (recipient_emails self))
                     subject [MIMEText body] in
  msg ← fold_each attachments msg (fun msg attachment =>
    data ← read_file attachment;
    if Text.endswith attachment ".png" then
      mret (Message (msg_from msg) (msg_to msg) (msg_subject msg)
              (msg_parts msg ++ [MIMEImage (basename attachment) data]))
    else if Text.endswith attachment ".csv" then
      df ← call (Pandas.read_csv data);
      write_file attachment (Pandas.to_csv df);;
      (* the handle opened before the rewrite now reads the new text *)
      data' ← read_file attachment;
      mret (Message (msg_from msg) (msg_to msg) (msg_subject msg)
              (msg_parts msg ++ [MIMEApplication (basename attachment) data']))
    else mret msg);
  smtp_deliver E msg.

(** The sizes are printed from the exact quotient by 1024 ** 3; Python
    rounds the quotient to a double first. *)
Definition get_system_info (self : UsageMonitor) : M (gmap string pyval) :=
  let h := the_host E in
  let system_info : gmap string pyval := ∅ in
  let system_info :=
    <["os" := PStr (os_name h ++ " " ++ os_version h ++ " (" ++ os_fullname h ++ ")")]>
      system_info in
  let system_info :=
    <["memory_size" := PStr (Float.repr (Z.of_N (mem_total h) # GIB) ++ "GB")]>
      system_info in
  let system_info := <["cpu_model" := PStr (cpu_brand h)]> system_info in
  let system_info :=
    match gputil h with
    | Some gpus => <["graphics" := PList gpus]> system_info
    | None => <["graphics" := PStr "GPUtil not installed"]> system_info
    end in
  let system_info :=
    <["storage" := PStr (Float.repr (Z.of_N (disk_total h) # GIB) ++ "GB")]>
      system_info in
  mret system_info.

Definition get_usage (self : UsageMonitor)
  : M (string * Float.pyfloat * Float.pyfloat) :=
  cpu_percent ← psutil_cpu_percent E;
  ram_percent ← psutil_virtual_memory_percent E;
  t ← datetime_now E;
  mret (Clock.strftime t, ram_percent, cpu_percent).

Definition write_to_csv (self : UsageMonitor) (timestamp : string)
    (ram_percent cpu_percent : Float.pyfloat) : M unit :=
  append_file (log_path self)
    (Csv.writerow Csv.CRLF
       [timestamp; Float.repr ram_percent; Float.repr cpu_percent]).

(** Lines 131-134 of [plot_usage]: the frame that is charted. *)
Definition resampled (self : UsageMonitor) : M (list Pandas.point) :=
  content ← read_file (log_path self);
  df ← call (Pandas.read_csv content);
  df ← call (Pandas.index_by_time df);
  mret (Pandas.resample_mean df).

Definition plot_usage (self : UsageMonitor) : M string :=
  df_resampled ← resampled self;
  let plot_path := "graph.png" in
  write_file plot_path (savefig E df_resampled);;
  mret plot_path.

(** [info[key]]. *)
Definition getitem (d : gmap string pyval) (key : string) : M pyval := fun w =>
  match d !! key with
  | Some v => (Ok v, w)
  | None => (Raise (KeyError key), w)
  end.

Definition send_email_report (self : UsageMonitor) : M UsageMonitor :=
  observe_now Reported;;     (* the call is noted in the trace *)
  info ← get_system_info self;
  let subject := "Daily CPU and RAM Usage Report | i-Tips" in
  i_os ← getitem info "os";
  i_memory_size ← getitem info "memory_size";
  i_cpu_model ← getitem info "cpu_model";
  i_graphics ← getitem info "graphics";
  i_storage ← getitem info "storage";
  let nl := Pandas.NL in
  let body :=
    "Hi, " ++ nl ++ nl
    ++ "Please find the daily CPU and RAM usage of below system report attached. "
    ++ nl ++ nl
    ++ "OS: " ++ pystr i_os ++ nl
    ++ "Memory Size: " ++ pystr i_memory_size ++ nl
    ++ "CPU Model: " ++ pystr i_cpu_model ++ nl
    ++ "Graphics: " ++ pystr i_graphics ++ nl
    ++ "Storage Size: " ++ pystr i_storage ++ nl ++ nl
    ++ "Thank you." ++ nl ++ "i-Tips Bot" in
  plot_path ← plot_usage self;
  let attachments := [plot_path; log_path self] in
  send_email self subject body attachments;;
  for_each attachments os_remove;;
  t ← datetime_now E;
  mret (Monitor (email self) (password self) (recipient_emails self)
                (Clock.strftime_date t)).

(** [read_usage_data]: the frame read back from the log, and the text
    [df.to_string(index=False)] makes of it. *)
Definition read_frame (self : UsageMonitor) : M Pandas.frame :=
  content ← read_file (log_path self);
  call (Pandas.read_csv content).

Variable to_string : Pandas.frame -> string.

Definition read_usage_data (self : UsageMonitor) : M string :=
  df ← read_frame self;
  mret (to_string df).

(** ** The script *)

Definition STOP_TIME : string := "23:59:59".

(** Truth value of a string from the environment, and of a list. *)
Definition truthy (s : option string) : bool :=
  match s with
  | Some (String _ _) => true
  | _ => false
  end.

(** The body of [while True] up to the test: sample, record, sleep,
    and look at the clock. *)
Definition tick (monitor : UsageMonitor) : M Z :=
  '(timestamp, ram_percent, cpu_percent) ← get_usage monitor;
  write_to_csv monitor timestamp ram_percent cpu_percent;;
  time_sleep 1;;
  t ← datetime_now E;
  observe (Checked t);;
  mret t.

(** One pass through the body of [while True]. *)
Definition iteration (monitor : UsageMonitor) : M UsageMonitor :=
  t ← tick monitor;
  if String.eqb (Clock.strftime_time t) STOP_TIME
  then send_email_report monitor
  else mret monitor.

(** [while True] cut after [fuel] passes; an exception ends it at
    once. *)
Fixpoint loop (fuel : nat) (monitor : UsageMonitor) : M UsageMonitor :=
  match fuel with
  | O => mret monitor
  | S fuel' => monitor' ← iteration monitor; loop fuel' monitor'
  end.

(** The [__main__] block.  [RECEIVER] is the list of recipients a
    deployment writes into the script (it is empty as shipped). *)
Definition main (RECEIVER : list string) (fuel : nat) : M unit :=
  let SENDER := getenv E "RESOURCE_MONITOR_SENDER_MAIL" in
  let PASSWORD := getenv E "RESOURCE_MONITOR_SENDER_PASSWORD" in
  if truthy SENDER && truthy PASSWORD && (if RECEIVER is [] then false else true)
  then
    monitor ← __init__ (default "" SENDER) (default "" PASSWORD) RECEIVER;
    loop fuel monitor;;
    mret tt
  else mret tt.

End Program.

(* ===================================================================== *)
(** * Vocabulary of the properties *)
(* ===================================================================== *)

(** What one tick observes: the clock, and the RAM and CPU percentages in
    tenths. *)
Definition reading : Type := Z * N * N.

(** The sample [get_usage] makes of it. *)
Definition sample_of (r : reading) : Pandas.row :=
  let '(t, ram, cpu) := r in
  (Clock.strftime t, Float.of_tenths ram, Float.of_tenths cpu).

(** The line [write_to_csv] writes for a sample, and a log of samples. *)
Definition line_of (s : Pandas.row) : string :=
  let '(ts, ram, cpu) := s in
  Csv.writerow Csv.CRLF [ts; Float.repr ram; Float.repr cpu].

Definition log_text (samples : list Pandas.row) : string :=
  String.concat "" (map line_of samples).

(** The fields of that line. *)
Definition fields_of (s : Pandas.row) : list string :=
  [s.1.1; Float.repr s.1.2; Float.repr s.2].

(** A sample as the sampler makes them: a timestamp of plain characters
    and two readings in tenths. *)
Definition recordable (s : Pandas.row) : Prop :=
  Csv.plain s.1.1
  /\ (exists k, s.1.2 = Float.of_tenths k)
  /\ (exists k, s.2 = Float.of_tenths k).

(** Appending samples one after the other, as the ticks of a day do. *)
Definition append_all (self : UsageMonitor) (samples : list Pandas.row) : M unit :=
  for_each samples (fun '(ts, ram, cpu) => write_to_csv self ts ram cpu).


(** ** Buckets of the chart *)

(** The samples whose timestamp falls in the minute that starts at [b]. *)
Definition members (b : Z) (s : Pandas.series) : Pandas.series :=
  filter (fun r => Pandas.floor_minute r.1.1 = b) s.

Definition Qsum (l : list Q) : Q := foldr Qplus 0%Q l.

(** The arithmetic mean of some values; no value for none. *)
Definition arithmetic_mean (l : list Q) : option Q :=
  match l with
  | [] => None
  | _ => Some (Qred (Qsum l / inject_Z (Z.of_nat (length l))))
  end.

(** The point of the bucket that starts at [b]. *)
Definition bucket_point (s : Pandas.series) (b : Z) : Pandas.point :=
  (b, arithmetic_mean ((fun r => r.1.2) <$> members b s),
      arithmetic_mean ((fun r => r.2) <$> members b s)).

(** The whole minutes from [lo] to [hi]. *)
Definition minute_marks (lo hi : Z) : list Z :=
  (fun i : nat => lo + 60 * Z.of_nat i) <$> seq 0 (Z.to_nat ((hi - lo) / 60 + 1)).

(** ** The calendar range of the clock *)

(** The year the clock shows. [strftime] prints it with four digits when
    it has four digits. *)
Definition year_of (t : Z) : Z := (Clock.civil_from_days (Clock.date_of t)).1.1.

Definition four_digit_year (t : Z) : Prop := 1000 <= year_of t <= 9999.

(** The years that lie wholly within the range of pandas' nanosecond
    timestamps, which run from 1677-09-21 to 2262-04-11. *)
Definition datetime64_year (t : Z) : Prop := 1678 <= year_of t <= 2261.

(** A reading as a row of the time series. *)
Definition series_row (r : reading) : Z * Q * Q :=
  let '(t, ram, cpu) := r in (t, Float.of_tenths ram, Float.of_tenths cpu).

(** Checks that are run over finite ranges: a number printed with
    [width] digits is read back, and a day number survives the trip
    through the calendar. *)
Definition prints_back (width : nat) (n : Z) : bool :=
  (String.length (Clock.zz width n) =? width)%nat
  && Text.forallb_str Text.is_digit (Clock.zz width n)
  && match Text.undec (Clock.zz width n) with
     | Some k => Z.of_N k =? n
     | None => false
     end.

Definition check_day (z : Z) : bool :=
  let '(y, m, d) := Clock.civil_from_days z in
  (1 <=? m) && (m <=? 12) && (1 <=? d) && (d <=? Clock.days_in_month y m)
  && (Clock.days_from_civil y m d =? z).

(** ** The report, step by step *)

Section ReportSteps.
Variable E : env.
Variable self : UsageMonitor.

(** What is left of [send_email_report] once the message text is
    built: chart, send, remove, and take the date of the new day. *)
Definition deliver_report (subject body : string) : M UsageMonitor :=
  plot_path ← plot_usage E self;
  let attachments := [plot_path; log_path self] in
  send_email E self subject body attachments;;
  for_each attachments os_remove;;
  t ← datetime_now E;
  mret (Monitor (email self) (password self) (recipient_emails self)
                (Clock.strftime_date t)).

Definition report_message (subject body png csv : string) : message :=
  Message (email self) (Text.join ", " (recipient_emails self)) subject
          [MIMEText body; MIMEImage "graph.png" png;
           MIMEApplication (basename (log_path self)) csv].

End ReportSteps.

(** ** Reading the trace *)

(** The clock readings the loop compared with STOP_TIME, latest first. *)
Fixpoint checks (tr : list event) : list Z :=
  match tr with
  | [] => []
  | Checked t :: rest => t :: checks rest
  | Reported _ :: rest => checks rest
  end.

(** The moments [send_email_report] was called, latest first. *)
Fixpoint reports (tr : list event) : list Z :=
  match tr with
  | [] => []
  | Checked _ :: rest => reports rest
  | Reported t :: rest => t :: reports rest
  end.

(** The calls that fell on a given day. *)
Definition reports_on (day : Z) (tr : list event) : list Z :=
  filter (fun t => Clock.date_of t = day) (reports tr).

(** The second 23:59:59 of a day. *)
Definition stop_second (day : Z) : Z := day * Clock.DAY + 86399.

(** The [n] integers from [first] on. *)
Fixpoint count_from (n : nat) (first : Z) : list Z :=
  match n with
  | O => []
  | S n' => first :: count_from n' (first + 1)
  end.

(** The wall clock is never set back. *)
Definition forward (E : env) : Prop := forall k, 0 <= elapse E k.

(** A computation leaves the machine in a given relation to the one it
    started from. *)
Definition keeps (R : world -> world -> Prop) {A : Type} (m : M A) : Prop :=
  forall w, R w (m w).2.

(** Nothing was added to the trace. *)
Definition same_trace (w w' : world) : Prop := trace w' = trace w.

(** Nothing was added to the trace and the clock did not go back. *)
Definition not_before (w w' : world) : Prop :=
  trace w' = trace w /\ now w <= now w'.

(** The test of the loop, on a clock reading. *)
Definition shows_stop_time (t : Z) : Prop :=
  String.eqb (Clock.strftime_time t) STOP_TIME = true.

#[global] Instance shows_stop_time_dec (t : Z) : Decision (shows_stop_time t) :=
  decide (String.eqb (Clock.strftime_time t) STOP_TIME = true).

(** The trace of a run of the loop: the reports are the tests that
    showed 23:59:59. *)
Definition reported_at_stops (w : world) : Prop :=
  reports (trace w) = filter shows_stop_time (checks (trace w)).

(** Every test of the clock is later than the ones before, and none is
    in the future. *)
Definition increasing (w : world) : Prop :=
  NoDup (checks (trace w))
  /\ (forall t, t ∈ checks (trace w) -> t <= now w).

(** ** Pieces of the methods, named *)

(** The body of the loop over the attachments in [send_email]. *)
Definition attach (msg : message) (attachment : string) : M message :=
  data ← read_file attachment;
  if Text.endswith attachment ".png" then
    mret (Message (msg_from msg) (msg_to msg) (msg_subject msg)
            (msg_parts msg ++ [MIMEImage (basename attachment) data]))
  else if Text.endswith attachment ".csv" then
    df ← call (Pandas.read_csv data);
    write_file attachment (Pandas.to_csv df);;
    data' ← read_file attachment;
    mret (Message (msg_from msg) (msg_to msg) (msg_subject msg)
            (msg_parts msg ++ [MIMEApplication (basename attachment) data']))
  else mret msg.

(** The reading the next [get_usage] takes. *)
Definition next_reading (E : env) (w : world) : reading :=
  (now w + elapse E (clock_reads w),
   ram_reading E (ram_reads w), cpu_reading E (cpu_reads w)).

(** The first second of the day of [t]. *)
Definition midnight (t : Z) : Z := Clock.date_of t * Clock.DAY.

(** ** A concrete machine, to run the model on *)

Module Example.

Definition a_host : host :=
  Host "Linux" "6.1.0" "#1 SMP" "Linux-6.1.0-x86_64" 17179869184 "Example CPU"
       None 536870912000.

(** Credentials are set, the clock never jumps, the readings are
    steady, every SMTP session delivers. *)
Definition an_env : env :=
  Env (fun _ => Some "monitor@example.org") a_host (fun _ => 0)
      (fun _ => 100%N) (fun _ => 400%N) (fun _ => Delivered) (fun _ => "PNG").

(** The same machine with a mail server that refuses. *)
Definition a_failing_env : env :=
  Env (fun _ => Some "monitor@example.org") a_host (fun _ => 0)
      (fun _ => 100%N) (fun _ => 400%N) (fun _ => Refused SMTPException)
      (fun _ => "PNG").

(** The same machine with a mail server that takes the message and
    then does not answer QUIT with 221. *)
Definition a_hanging_env : env :=
  Env (fun _ => Some "monitor@example.org") a_host (fun _ => 0)
      (fun _ => 100%N) (fun _ => 400%N) (fun _ => Lost_after_send SMTPException)
      (fun _ => "PNG").

Definition a_monitor : UsageMonitor :=
  Monitor "monitor@example.org" "secret" ["ops@example.org"] "2024-01-01".

(** 2024-01-01 09:00:00. *)
Definition nine : Z := 1704099600.

(** The log of the scenario: 09:00:00 with RAM 40 and CPU 10, then
    09:00:30 with RAM 60 and CPU 20. *)
Definition two_samples : list reading :=
  [(nine, 400%N, 100%N); (nine + 30, 600%N, 200%N)].

Definition a_world (files : gmap string string) (t : Z) : world :=
  World files t 0 0 0 0 [] [].

Definition a_logged_world : world :=
  a_world {[ "usage_2024-01-01.csv" := log_text (map sample_of two_samples) ]}
          (nine + 31).

(** A day whose log is an empty file. *)
Definition an_empty_log_world : world :=
  a_world {[ "usage_2024-01-01.csv" := "" ]} (nine + 31).

(** 2024-01-01 23:59:57, nothing on disk. *)
Definition a_late_world : world := a_world ∅ 1704153597.

(** A machine on which one second is lost just before the first test
    of the clock against STOP_TIME. *)
Definition a_jittery_env : env :=
  Env (fun _ => Some "monitor@example.org") a_host
      (fun k => if (k =? 2)%nat then 1 else 0)
      (fun _ => 100%N) (fun _ => 400%N) (fun _ => Delivered) (fun _ => "PNG").

(** A machine whose clock is set back by one second just before the
    sixth look at it. *)
Definition a_set_back_env : env :=
  Env (fun _ => Some "monitor@example.org") a_host
      (fun k => if (k =? 5)%nat then -1 else 0)
      (fun _ => 100%N) (fun _ => 400%N) (fun _ => Delivered) (fun _ => "PNG").

(** A text file beside the log. *)
Definition a_world_with_notes : world :=
  a_world {[ "notes.txt" := "hello" ]} nine.

(** A day whose log already carries the header row. *)
Definition a_headed_world : world :=
  a_world {[ "usage_2024-01-01.csv" :=
               "Timestamp,RAM,CPU" ++ Pandas.NL
               ++ "2024-01-01 09:00:00,40.0,10.0" ++ Pandas.NL ]} (nine + 31).


End Example.

(* ===================================================================== *)
(** * Facts about text *)
(* ===================================================================== *)

(* stdpp freezes [String.append] under [simpl]; the proofs below unfold it. *)
#[local] Arguments String.append !_ _ / : simpl nomatch.

Module TextFacts.
Import Text.

Lemma app_assoc (a b c : string) : (a ++ b) ++ c = a ++ (b ++ c).
Proof. induction a as [|x a IH]; simpl; [reflexivity | now rewrite IH]. Qed.

Lemma app_nil_r (a : string) : a ++ "" = a.
Proof. induction a as [|x a IH]; simpl; [reflexivity | now rewrite IH]. Qed.

Lemma length_app (a b : string) :
  String.length (a ++ b) = (String.length a + String.length b)%nat.
Proof. induction a as [|x a IH]; simpl; [reflexivity | now rewrite IH]. Qed.

Lemma forallb_str_app p (a b : string) :
  forallb_str p (a ++ b) = forallb_str p a && forallb_str p b.
Proof.
  induction a as [|x a IH]; simpl; [reflexivity|].
  rewrite IH. now rewrite andb_assoc.
Qed.

Lemma forallb_str_impl (p q : ascii -> bool) (s : string) :
  (forall c, p c = true -> q c = true) ->
  forallb_str p s = true -> forallb_str q s = true.
Proof.
  intros Hpq. induction s as [|x s IH]; simpl; [reflexivity|].
  intros [Hx Hs]%andb_true_iff. rewrite (Hpq _ Hx). simpl. auto.
Qed.

Lemma existsb_forallb_str p (s : string) :
  existsb_str p s = negb (forallb_str (fun c => negb (p c)) s).
Proof.
  induction s as [|x s IH]; simpl; [reflexivity|].
  rewrite IH. now destruct (p x).
Qed.

(** ** Decimal numerals *)

Lemma digits_of_uint d : forallb_str is_digit (NilEmpty.string_of_uint d) = true.
Proof. induction d; simpl; auto. Qed.

Lemma dec_digits n : forallb_str is_digit (dec n) = true.
Proof. apply digits_of_uint. Qed.

Lemma dec_nonempty n : dec n <> "".
Proof.
  unfold dec. intros H.
  assert (Hn : N.to_uint n <> Decimal.Nil).
  { destruct n; simpl; [discriminate | apply DecimalPos.Unsigned.to_uint_nonnil]. }
  apply Hn. pose proof (NilEmpty.usu (N.to_uint n)) as Hu.
  rewrite H in Hu. simpl in Hu. congruence.
Qed.

Lemma undec_dec n : undec (dec n) = Some n.
Proof.
  unfold undec. pose proof (dec_nonempty n) as Hne.
  destruct (dec n) eqn:Hd; [congruence|].
  rewrite <- Hd. unfold dec. rewrite NilEmpty.usu. simpl.
  now rewrite DecimalN.Unsigned.of_to.
Qed.

Lemma zfill_digits width n : forallb_str is_digit (zfill width n) = true.
Proof.
  unfold zfill. rewrite forallb_str_app, dec_digits, andb_true_r.
  induction (width - String.length (dec n))%nat; simpl; auto.
Qed.

(** ** Splitting *)

Lemma split_at_app c (a b : string) :
  forallb_str (fun x => negb (Ascii.eqb x c)) a = true ->
  split_at c (a ++ String c b) = (a, Some b).
Proof.
  induction a as [|x a IH]; simpl.
  - intros _. now rewrite Ascii.eqb_refl.
  - intros [Hx Ha]%andb_true_iff. apply negb_true_iff in Hx.
    rewrite Hx, (IH Ha). reflexivity.
Qed.

Lemma digit_not_point c : is_digit c = true -> negb (Ascii.eqb c ".") = true.
Proof. destruct c as [[] [] [] [] [] [] [] []]; vm_compute; congruence. Qed.

(** ** [endswith] *)

Lemma substring_all (s : string) : substring 0 (String.length s) s = s.
Proof. induction s as [|x s IH]; simpl; [reflexivity | now rewrite IH]. Qed.

Lemma substring_skip (a b : string) n :
  substring (String.length a) n (a ++ b) = substring 0 n b.
Proof. induction a as [|x a IH]; simpl; [reflexivity | apply IH]. Qed.

Lemma endswith_app (a suffix : string) : endswith (a ++ suffix) suffix = true.
Proof.
  unfold endswith. rewrite length_app.
  replace (String.length a + String.length suffix - String.length suffix)%nat
    with (String.length a) by lia.
  rewrite substring_skip, substring_all, String.eqb_refl.
  rewrite andb_true_r. apply Nat.leb_le. lia.
Qed.

Lemma endswith_app_ne (a s1 s2 : string) :
  String.length s1 = String.length s2 -> s1 <> s2 ->
  endswith (a ++ s1) s2 = false.
Proof.
  intros Hlen Hne. unfold endswith. rewrite length_app, <- Hlen.
  replace (String.length a + String.length s1 - String.length s1)%nat
    with (String.length a) by lia.
  rewrite substring_skip, substring_all.
  apply String.eqb_neq in Hne. rewrite Hne. apply andb_false_r.
Qed.

End TextFacts.

(* ===================================================================== *)
(** * Facts about floats as text *)
(* ===================================================================== *)

Module FloatFacts.
Import Text TextFacts Float.

Lemma undec_digit (d : N) : (d < 10)%N -> undec (String (digit d) "") = Some d.
Proof.
  intros H.
  assert (Hd : In d [0; 1; 2; 3; 4; 5; 6; 7; 8; 9]%N).
  { simpl. lia. }
  simpl in Hd. intuition (subst; reflexivity || contradiction).
Qed.

Lemma digit_is_digit (d : N) : (d < 10)%N -> is_digit (digit d) = true.
Proof.
  intros H.
  assert (Hd : In d [0; 1; 2; 3; 4; 5; 6; 7; 8; 9]%N).
  { simpl. lia. }
  simpl in Hd. intuition (subst; reflexivity || contradiction).
Qed.

Lemma frac_digits_tenth fuel (r : N) :
  frac_digits (S fuel) r 10 = String (digit r) "".
Proof.
  cbn [frac_digits].
  rewrite (N.mul_comm 10 r), N.div_mul, N.Div0.mod_mul by discriminate.
  reflexivity.
Qed.

(** What Python prints for a reading of [k] tenths. *)
Lemma repr_of_tenths (k : N) :
  repr (of_tenths k) = dec (k / 10) ++ "." ++ String (digit (k mod 10)) "".
Proof.
  unfold repr, of_tenths. cbn [Qnum Qden].
  assert (Hk : (Z.of_N k <? 0) = false) by (apply Z.ltb_ge; lia).
  rewrite Hk, Z.abs_eq, N2Z.id by lia.
  change (N.pos 10) with 10%N.
  change 17%nat with (S 16). rewrite frac_digits_tenth. reflexivity.
Qed.

(** Printing a reading and parsing it back gives the reading. *)
Lemma parse_repr_tenths (k : N) : parse (repr (of_tenths k)) = Some (of_tenths k).
Proof.
  rewrite repr_of_tenths. unfold parse.
  change (dec (k / 10) ++ "." ++ String (digit (k mod 10)) "")
    with (dec (k / 10) ++ String "."%char (String (digit (k mod 10)) "")).
  rewrite split_at_app.
  2:{ eapply forallb_str_impl; [apply digit_not_point | apply dec_digits]. }
  rewrite undec_dec, undec_digit by (apply N.mod_lt; discriminate).
  cbn [String.length]. change (10 ^ N.of_nat 1)%N with 10%N.
  change (N.succ_pos (N.pred 10)) with 10%positive.
  unfold of_tenths. do 2 f_equal.
  rewrite (N.div_mod k 10) at 3 by discriminate. lia.
Qed.

End FloatFacts.

(* ===================================================================== *)
(** * Facts about the CSV text of a log *)
(* ===================================================================== *)

Module CsvFacts.
Import Text TextFacts Csv Pandas.

Lemma safe_ordinary c :
  safe c = true ->
  Ascii.eqb c LF = false /\ Ascii.eqb c CR = false
  /\ Ascii.eqb c DQUOTE = false /\ Ascii.eqb c COMMA = false.
Proof. destruct c as [[] [] [] [] [] [] [] []]; vm_compute; intuition congruence. Qed.

Lemma safe_not_special lt c :
  lt = Csv.CRLF \/ lt = NL -> safe c = true -> negb (Csv.special lt c) = true.
Proof.
  intros [-> | ->]; destruct c as [[] [] [] [] [] [] [] []]; vm_compute; congruence.
Qed.

Lemma digit_safe c : is_digit c = true -> safe c = true.
Proof. unfold safe. now intros ->. Qed.

Lemma plain_app a b : plain a -> plain b -> plain (a ++ b).
Proof. unfold plain. intros Ha Hb. now rewrite forallb_str_app, Ha, Hb. Qed.

Lemma plain_digits s : forallb_str is_digit s = true -> plain s.
Proof. apply forallb_str_impl, digit_safe. Qed.

Lemma plain_repr_tenths k : plain (Float.repr (Float.of_tenths k)).
Proof.
  rewrite FloatFacts.repr_of_tenths.
  apply plain_app; [apply plain_digits, dec_digits|].
  apply plain_app; [reflexivity|].
  unfold plain. cbn [forallb_str].
  rewrite digit_safe; [reflexivity|].
  apply FloatFacts.digit_is_digit, N.mod_lt. discriminate.
Qed.

(** ** The writer leaves plain fields as they are *)

Lemma field_plain lt f :
  lt = Csv.CRLF \/ lt = NL -> plain f -> Csv.field lt f = f.
Proof.
  intros Hlt Hf. unfold Csv.field.
  rewrite existsb_forallb_str.
  rewrite (forallb_str_impl safe _ f (fun c => safe_not_special lt c Hlt) Hf).
  reflexivity.
Qed.

Lemma writerow_plain lt (a b c : string) :
  lt = Csv.CRLF \/ lt = NL -> plain a -> plain b -> plain c ->
  Csv.writerow lt [a; b; c] = a ++ "," ++ b ++ "," ++ c ++ lt.
Proof.
  intros Hlt Ha Hb Hc. unfold Csv.writerow.
  assert (Hj : join (String COMMA "") (map (Csv.field lt) [a; b; c])
               = a ++ "," ++ b ++ "," ++ c).
  { cbn [map join]. now rewrite !field_plain by assumption. }
  destruct a; rewrite Hj; now rewrite ?app_assoc.
Qed.

(** ** The tokenizer reads them back *)

Lemma run_app t (a b : string) : run t (a ++ b) = run (run t a) b.
Proof. revert t. induction a as [|x a IH]; intros t; simpl; [reflexivity | apply IH]. Qed.

Lemma run_in_field (f : string) :
  plain f ->
  forall x r rs, run (Tok IN_FIELD x r rs) f = Tok IN_FIELD (x ++ f) r rs.
Proof.
  unfold plain. induction f as [|c f IH]; intros Hf x r rs.
  - simpl. now rewrite app_nil_r.
  - simpl in Hf. apply andb_true_iff in Hf as [Hc Hf].
    destruct (safe_ordinary c Hc) as (H1 & H2 & H3 & H4).
    cbn [run step st]. rewrite H1, H2, H4.
    unfold push_char. cbn [fld rec rows]. rewrite (IH Hf).
    now rewrite app_assoc.
Qed.

(** A plain field read from the start of a field or of a line. *)
Lemma run_field_open (f : string) s r rs :
  s = START_RECORD \/ s = START_FIELD -> plain f -> f <> "" ->
  run (Tok s "" r rs) f = Tok IN_FIELD f r rs.
Proof.
  intros Hs Hf Hne. destruct f as [|c f]; [congruence|].
  unfold plain in Hf. simpl in Hf. apply andb_true_iff in Hf as [Hc Hf].
  destruct (safe_ordinary c Hc) as (H1 & H2 & H3 & H4).
  destruct Hs as [-> | ->]; cbn [run step st]; unfold start_record, start_field;
    rewrite H1, H2, H3, H4; unfold push_char; cbn [fld rec rows];
    now rewrite (run_in_field f Hf).
Qed.

Lemma run_field_comma (f rest : string) s r rs :
  s = START_RECORD \/ s = START_FIELD -> plain f ->
  run (Tok s "" r rs) (f ++ String COMMA rest)
  = run (Tok START_FIELD "" (r ++ [f]) rs) rest.
Proof.
  intros Hs Hf. destruct f as [|c f].
  - destruct Hs as [-> | ->]; reflexivity.
  - rewrite run_app, run_field_open by (assumption || discriminate).
    reflexivity.
Qed.

Lemma run_field_crlf (f rest : string) r rs :
  plain f ->
  run (Tok START_FIELD "" r rs) (f ++ Csv.CRLF ++ rest)
  = run (Tok START_RECORD "" [] (rs ++ [(r ++ [f])%list])) rest.
Proof.
  intros Hf. destruct f as [|c f].
  - reflexivity.
  - rewrite run_app, run_field_open by (auto || discriminate).
    reflexivity.
Qed.

Lemma run_row (a b c rest : string) rs :
  plain a -> plain b -> plain c ->
  run (Tok START_RECORD "" [] rs) (Csv.writerow Csv.CRLF [a; b; c] ++ rest)
  = run (Tok START_RECORD "" [] (rs ++ [[a; b; c]])) rest.
Proof.
  intros Ha Hb Hc. rewrite writerow_plain by auto.
  rewrite !app_assoc.
  change ("," ++ b ++ "," ++ c ++ Csv.CRLF ++ rest)
    with (String COMMA (b ++ String COMMA (c ++ Csv.CRLF ++ rest))).
  rewrite run_field_comma by auto.
  rewrite run_field_comma by auto.
  now rewrite run_field_crlf.
Qed.

End CsvFacts.

(* ===================================================================== *)
(** * Facts about logs *)
(* ===================================================================== *)

Module LogFacts.
Import Text TextFacts Csv CsvFacts Pandas.

Ltac plain_pieces :=
  lazymatch goal with
  | |- plain (_ ++ _) => apply plain_app; plain_pieces
  | |- plain (zfill _ _) => apply plain_digits, zfill_digits
  | |- plain _ => reflexivity
  end.

Lemma plain_strftime t : plain (Clock.strftime t).
Proof.
  unfold Clock.strftime, Clock.strftime_date, Clock.strftime_time, Clock.zz.
  destruct (Clock.civil_from_days _) as [[y m] d].
  plain_pieces.
Qed.

Lemma recordable_sample_of r : recordable (sample_of r).
Proof.
  destruct r as [[t ram] cpu]. repeat split; cbn.
  - apply plain_strftime.
  - now exists ram.
  - now exists cpu.
Qed.

Lemma recordable_samples (rs : list reading) : Forall recordable (map sample_of rs).
Proof.
  induction rs as [|r rs IH]; cbn [map]; constructor;
    [apply recordable_sample_of | exact IH].
Qed.

Lemma concat_cons (x : string) xs :
  String.concat "" (x :: xs) = x ++ String.concat "" xs.
Proof. destruct xs; cbn [String.concat]; [now rewrite app_nil_r | reflexivity]. Qed.

Lemma log_text_cons s samples : log_text (s :: samples) = line_of s ++ log_text samples.
Proof. unfold log_text. cbn [map]. apply concat_cons. Qed.

Lemma log_text_snoc samples s : log_text (samples ++ [s]) = log_text samples ++ line_of s.
Proof.
  induction samples as [|x xs IH].
  - cbn [app]. rewrite log_text_cons. unfold log_text at 1 2. cbn.
    now rewrite app_nil_r.
  - cbn [app]. rewrite !log_text_cons, IH. now rewrite app_assoc.
Qed.

(** The tokenizer finds the lines of a log, one per sample. *)
Lemma run_log samples :
  Forall recordable samples ->
  forall rs rest,
    run (Tok START_RECORD "" [] rs) (log_text samples ++ rest)
    = run (Tok START_RECORD "" [] (rs ++ map fields_of samples)) rest.
Proof.
  induction 1 as [|s samples Hs _ IH]; intros rs rest.
  - cbn. now rewrite List.app_nil_r.
  - rewrite log_text_cons, app_assoc.
    destruct s as [[ts ram] cpu]. destruct Hs as (Hts & [a Ha] & [b Hb]).
    cbn in Hts, Ha, Hb. subst ram cpu. cbn [line_of].
    rewrite run_row by (auto using plain_repr_tenths).
    rewrite IH. cbn [map]. now rewrite <- List.app_assoc.
Qed.

Lemma convert_rows_log samples :
  Forall recordable samples -> convert_rows (map fields_of samples) = Ok samples.
Proof.
  induction 1 as [|s samples Hs _ IH]; [reflexivity|].
  destruct s as [[ts ram] cpu]. destruct Hs as (Hts & [a Ha] & [b Hb]).
  cbn in Ha, Hb. subst ram cpu.
  cbn [map convert_rows fields_of convert_row fst snd].
  rewrite !FloatFacts.parse_repr_tenths, IH. reflexivity.
Qed.

(** Reading a log of recordable samples gives the samples. *)
Lemma read_csv_log samples :
  Forall recordable samples -> read_csv (log_text samples) = Ok samples.
Proof.
  intros H. unfold read_csv, tokenize, init.
  rewrite <- (app_nil_r (log_text samples)), run_log by assumption.
  cbn. now apply convert_rows_log.
Qed.

End LogFacts.

(* ===================================================================== *)
(** * Facts about the calendar *)
(* ===================================================================== *)

Module CalendarFacts.
Import Text TextFacts.

Lemma in_count_from n : forall first x,
  first <= x < first + Z.of_nat n -> In x (count_from n first).
Proof.
  induction n as [|n IH]; intros first x Hx; [lia|].
  cbn [count_from]. destruct (Z.eq_dec first x) as [-> | Hne]; [now left|].
  right. apply IH. lia.
Qed.

(** A check that holds on a whole range holds at each of its points. *)
Lemma table_lookup (f : Z -> bool) (n first x : Z) :
  forallb f (count_from (Z.to_nat n) first) = true ->
  first <= x < first + n -> f x = true.
Proof.
  intros Htable Hx.
  apply (proj1 (forallb_forall _ _) Htable x), in_count_from.
  rewrite Z2Nat.id; lia.
Qed.

Lemma zz2_table : forallb (prints_back 2) (count_from (Z.to_nat 100) 0) = true.
Proof. vm_compute. reflexivity. Qed.

Lemma zz4_table : forallb (prints_back 4) (count_from (Z.to_nat 9000) 1000) = true.
Proof. vm_compute. reflexivity. Qed.

Lemma take_exact_app (a rest : string) :
  take_exact (String.length a) (a ++ rest) = Some (a, rest).
Proof.
  induction a as [|c a IH]; [reflexivity|].
  cbn [String.length String.append take_exact]. now rewrite IH.
Qed.

(** A printed field is parsed back, whatever follows it. *)
Lemma digits_zz width n rest :
  prints_back width n = true ->
  Pandas.digits width (Clock.zz width n ++ rest) = Some (n, rest).
Proof.
  unfold prints_back. intros [[Hlen Hdig]%andb_true_iff Hval]%andb_true_iff.
  apply Nat.eqb_eq in Hlen. unfold Pandas.digits.
  rewrite <- Hlen at 1. rewrite take_exact_app, Hdig.
  destruct (undec (Clock.zz width n)) as [k|]; [|discriminate].
  apply Z.eqb_eq in Hval. subst n. reflexivity.
Qed.

Lemma digits_zz2 n rest :
  0 <= n < 100 -> Pandas.digits 2 (Clock.zz 2 n ++ rest) = Some (n, rest).
Proof. intros H. apply digits_zz, (table_lookup _ _ _ _ zz2_table). lia. Qed.

Lemma digits_zz4 n rest :
  1000 <= n <= 9999 -> Pandas.digits 4 (Clock.zz 4 n ++ rest) = Some (n, rest).
Proof. intros H. apply digits_zz, (table_lookup _ _ _ _ zz4_table). lia. Qed.

(** ** Days and dates *)

(** The 146097 days of one cycle of 400 years. *)
Lemma day_table :
  forallb check_day (count_from (Z.to_nat 146097) (-719468)) = true.
Proof. vm_compute. reflexivity. Qed.

(** The calendar repeats every 400 years. *)
Lemma civil_from_days_shift z e :
  Clock.civil_from_days (z + 146097 * e)
  = let '(y, m, d) := Clock.civil_from_days z in (y + 400 * e, m, d).
Proof.
  unfold Clock.civil_from_days. cbv zeta.
  replace (z + 146097 * e + 719468) with (z + 719468 + e * 146097) by lia.
  rewrite Z.div_add by lia.
  replace (z + 719468 + e * 146097 - ((z + 719468) / 146097 + e) * 146097)
    with (z + 719468 - (z + 719468) / 146097 * 146097) by lia.
  set (doe := z + 719468 - (z + 719468) / 146097 * 146097).
  set (yoe := (doe - doe / 1460 + doe / 36524 - doe / 146096) / 365).
  set (doy := doe - (365 * yoe + yoe / 4 - yoe / 100)).
  set (mp := (5 * doy + 2) / 153).
  destruct (_ <=? 2); f_equal; f_equal; ring.
Qed.

Lemma days_from_civil_shift y m d e :
  Clock.days_from_civil (y + 400 * e) m d = Clock.days_from_civil y m d + 146097 * e.
Proof.
  unfold Clock.days_from_civil. cbv zeta.
  destruct (m <=? 2).
  - replace (y + 400 * e - 1) with (y - 1 + e * 400) by lia.
    rewrite Z.div_add by lia.
    replace (y - 1 + e * 400 - ((y - 1) / 400 + e) * 400)
      with (y - 1 - (y - 1) / 400 * 400) by lia.
    ring.
  - replace (y + 400 * e) with (y + e * 400) by lia.
    rewrite Z.div_add by lia.
    replace (y + e * 400 - (y / 400 + e) * 400) with (y - y / 400 * 400) by lia.
    ring.
Qed.

Lemma is_leap_shift y e : Clock.is_leap (y + 400 * e) = Clock.is_leap y.
Proof.
  unfold Clock.is_leap.
  replace ((y + 400 * e) mod 4) with (y mod 4)
    by (replace (y + 400 * e) with (y + (100 * e) * 4) by lia;
        now rewrite Z.mod_add by lia).
  replace ((y + 400 * e) mod 100) with (y mod 100)
    by (replace (y + 400 * e) with (y + (4 * e) * 100) by lia;
        now rewrite Z.mod_add by lia).
  replace ((y + 400 * e) mod 400) with (y mod 400)
    by (replace (y + 400 * e) with (y + e * 400) by lia;
        now rewrite Z.mod_add by lia).
  reflexivity.
Qed.

Lemma days_in_month_shift y m e :
  Clock.days_in_month (y + 400 * e) m = Clock.days_in_month y m.
Proof. unfold Clock.days_in_month. now rewrite is_leap_shift. Qed.

(** Every day number is a valid date, and the date names that day. *)
Lemma civil_round_trip z :
  let '(y, m, d) := Clock.civil_from_days z in
  1 <= m <= 12 /\ 1 <= d <= Clock.days_in_month y m
  /\ Clock.days_from_civil y m d = z.
Proof.
  set (e := (z + 719468) / 146097).
  set (z0 := z - 146097 * e).
  assert (Hz0 : -719468 <= z0 < -719468 + 146097).
  { subst z0 e. pose proof (Z.div_mod (z + 719468) 146097).
    pose proof (Z.mod_pos_bound (z + 719468) 146097). lia. }
  pose proof (table_lookup _ _ _ _ day_table Hz0) as Hcheck.
  replace z with (z0 + 146097 * e) by (subst z0; lia).
  rewrite civil_from_days_shift. unfold check_day in Hcheck.
  destruct (Clock.civil_from_days z0) as [[y m] d].
  rewrite days_in_month_shift, days_from_civil_shift.
  repeat (apply andb_true_iff in Hcheck as [Hcheck ?]).
  lia.
Qed.

Lemma days_in_month_le y m : Clock.days_in_month y m <= 31.
Proof.
  unfold Clock.days_in_month.
  destruct (m =? 2); [destruct (Clock.is_leap y); lia|].
  destruct (_ || _); lia.
Qed.

Lemma expect_this c rest : Pandas.expect c (String c rest) = Some rest.
Proof. cbn. now rewrite Ascii.eqb_refl. Qed.

(** ** The timestamp of the recorder is a date pandas reads back *)

Lemma to_datetime_strftime t :
  four_digit_year t -> Pandas.to_datetime (Clock.strftime t) = Ok t.
Proof.
  unfold four_digit_year, year_of. intros Hyear.
  pose proof (civil_round_trip (Clock.date_of t)) as Hcal.
  unfold Clock.strftime, Clock.strftime_date, Clock.strftime_time.
  destruct (Clock.civil_from_days (Clock.date_of t)) as [[y m] d].
  cbn [fst] in Hyear. destruct Hcal as (Hm & Hd & Hdays).
  pose proof (days_in_month_le y m) as Hdim.
  set (s := Clock.second_of_day t).
  assert (Hs : 0 <= s < 86400).
  { subst s. unfold Clock.second_of_day, Clock.DAY. apply Z.mod_pos_bound. lia. }
  assert (Hh : 0 <= s / 3600 < 24).
  { split; [apply Z.div_pos; lia | apply Z.div_lt_upper_bound; lia]. }
  assert (Hmin : 0 <= s / 60 mod 60 < 60) by (apply Z.mod_pos_bound; lia).
  assert (Hsec : 0 <= s mod 60 < 60) by (apply Z.mod_pos_bound; lia).
  rewrite !app_assoc. unfold Pandas.to_datetime.
  rewrite digits_zz4 by lia. cbn [mbind option_bind].
  change ("-" ++ ?x) with (String "-"%char x). rewrite expect_this. cbn [mbind option_bind].
  rewrite digits_zz2 by lia. cbn [mbind option_bind].
  change ("-" ++ ?x) with (String "-"%char x). rewrite expect_this. cbn [mbind option_bind].
  rewrite digits_zz2 by lia. cbn [mbind option_bind].
  change (" " ++ ?x) with (String " "%char x). rewrite expect_this. cbn [mbind option_bind].
  rewrite digits_zz2 by lia. cbn [mbind option_bind].
  change (":" ++ ?x) with (String ":"%char x). rewrite expect_this. cbn [mbind option_bind].
  rewrite digits_zz2 by lia. cbn [mbind option_bind].
  change (":" ++ ?x) with (String ":"%char x). rewrite expect_this. cbn [mbind option_bind].
  rewrite <- (app_nil_r (Clock.zz 2 (s mod 60))).
  rewrite digits_zz2 by lia. cbn [mbind option_bind].
  replace ((1 <=? m) && (m <=? 12) && (1 <=? d) && (d <=? Clock.days_in_month y m)
           && (s / 3600 <? 24) && (s / 60 mod 60 <? 60) && (s mod 60 <? 60))
    with true.
  2:{ symmetry. repeat (apply andb_true_iff; split);
        first [apply Z.leb_le | apply Z.ltb_lt]; lia. }
  f_equal. rewrite Hdays. subst s.
  unfold Clock.date_of, Clock.second_of_day, Clock.DAY in *.
  pose proof (Z.div_mod t 86400).
  pose proof (Z.div_mod (t mod 86400) 60).
  pose proof (Z.div_mod (t mod 86400 / 60) 60).
  assert (t mod 86400 / 60 / 60 = t mod 86400 / 3600)
    by (rewrite Z.div_div by lia; reflexivity).
  lia.
Qed.

Lemma index_by_time_log (rs : list reading) :
  Forall (fun r => four_digit_year r.1.1) rs ->
  Pandas.index_by_time (map sample_of rs) = Ok (map series_row rs).
Proof.
  induction 1 as [|[[t ram] cpu] rs Hr _ IH]; [reflexivity|].
  cbn [map sample_of series_row Pandas.index_by_time].
  cbn [fst] in Hr. now rewrite (to_datetime_strftime t Hr), IH.
Qed.

End CalendarFacts.

(* ===================================================================== *)
(** * Facts about the methods *)
(* ===================================================================== *)

(** Unfolds the monad so that a run can be computed step by step. *)
Ltac monad := unfold mbind, M_bind, mret, M_ret, call, raise in *.

Lemma set_fs_set_fs f g w : set_fs f (set_fs g w) = set_fs (fun m => f (g m)) w.
Proof. reflexivity. Qed.

Lemma set_fs_ext f g w : f (fs w) = g (fs w) -> set_fs f w = set_fs g w.
Proof. unfold set_fs. now intros ->. Qed.

Lemma set_fs_id f w : f (fs w) = fs w -> set_fs f w = w.
Proof. destruct w. unfold set_fs. cbn. now intros ->. Qed.

Section Recorder.
Import TextFacts LogFacts.
Variable self : UsageMonitor.

Lemma write_to_csv_run ts ram cpu w :
  write_to_csv self ts ram cpu w
  = (Ok tt, set_fs (fun m => <[log_path self :=
               default "" (m !! log_path self) ++ line_of (ts, ram, cpu)]> m) w).
Proof. reflexivity. Qed.

(** Appending to a log that exists extends its text. *)
Lemma append_all_existing samples : forall w c,
  fs w !! log_path self = Some c ->
  append_all self samples w
  = (Ok tt, set_fs (fun m => <[log_path self := c ++ log_text samples]> m) w).
Proof.
  induction samples as [|[[ts ram] cpu] rest IH]; intros w c Hc.
  - cbn. f_equal. symmetry. apply set_fs_id.
    cbn. rewrite app_nil_r. now apply insert_id.
  - unfold append_all in *. cbn [for_each]. monad.
    rewrite write_to_csv_run.
    rewrite (IH _ (default "" (fs w !! log_path self) ++ line_of (ts, ram, cpu)))
      by apply lookup_insert_eq.
    f_equal. rewrite set_fs_set_fs. apply set_fs_ext.
    rewrite insert_insert_eq, Hc. cbn [default].
    now rewrite log_text_cons, app_assoc.
Qed.

(** The first append of a day creates the log. *)
Lemma append_all_fresh s rest w :
  fs w !! log_path self = None ->
  append_all self (s :: rest) w
  = (Ok tt, set_fs (fun m => <[log_path self := log_text (s :: rest)]> m) w).
Proof.
  intros Hnone. destruct s as [[ts ram] cpu].
  unfold append_all. cbn [for_each]. monad. rewrite write_to_csv_run.
  fold (append_all self rest).
  rewrite (append_all_existing rest _
             (default "" (fs w !! log_path self) ++ line_of (ts, ram, cpu)))
    by apply lookup_insert_eq.
  f_equal. rewrite set_fs_set_fs. apply set_fs_ext.
  rewrite insert_insert_eq, Hnone. cbn [default].
  now rewrite log_text_cons.
Qed.

Lemma read_frame_run w c :
  fs w !! log_path self = Some c ->
  read_frame self w = (Pandas.read_csv c, w).
Proof. intros Hc. unfold read_frame, read_file. monad. now rewrite Hc. Qed.

End Recorder.

(** C2. Samples appended to the log of a day are read back exactly and
    in order.  Starting from a day without a log, appending the samples
    of any non-empty sequence of readings (each append opens the
    date-named file in append mode and writes one text row) succeeds,
    and reading the log back then yields exactly those samples in append
    order: the timestamp strings and the RAM and CPU values are the ones
    appended.  [read_usage_data] returns the rendering of that frame.
    Every sample [get_usage] returns is the sample of some reading. *)
Theorem log_round_trip (E : env) (to_string : Pandas.frame -> string)
    (self : UsageMonitor) (w : world) (rs : list reading) :
  fs w !! log_path self = None ->
  rs <> [] ->
  let samples := map sample_of rs in
  let w' := (append_all self samples w).2 in
  (append_all self samples w).1 = Ok tt
  /\ read_frame self w' = (Ok samples, w')
  /\ read_usage_data to_string self w' = (Ok (to_string samples), w')
  /\ (exists r, (get_usage E self w).1 = Ok (sample_of r)).
Proof.
  intros Hnone Hne samples w'.
  assert (Hrec : Forall recordable samples)
    by apply LogFacts.recordable_samples.
  assert (Hrun : append_all self samples w
                 = (Ok tt, set_fs (fun m => <[log_path self := log_text samples]> m) w)).
  { subst samples. destruct rs as [|r rs']; [congruence|].
    cbn [map]. now apply append_all_fresh. }
  assert (Hread : read_frame self w' = (Ok samples, w')).
  { subst w'. rewrite Hrun. cbn [snd].
    rewrite (read_frame_run self _ (log_text samples)) by apply lookup_insert_eq.
    now rewrite LogFacts.read_csv_log. }
  split; [now rewrite Hrun|]. split; [exact Hread|]. split.
  - unfold read_usage_data. monad. now rewrite Hread.
  - exists (now w + elapse E (clock_reads w),
            ram_reading E (ram_reads w), cpu_reading E (cpu_reads w)).
    reflexivity.
Qed.

(* ===================================================================== *)
(** * Facts about resampling *)
(* ===================================================================== *)

Module ResampleFacts.
Import Pandas.

Lemma floor_minute_le t : floor_minute t <= t.
Proof. unfold floor_minute, MINUTE. pose proof (Z.mul_div_le t 60). lia. Qed.

Lemma floor_minute_mono a b : a <= b -> floor_minute a <= floor_minute b.
Proof.
  intros H. unfold floor_minute, MINUTE.
  pose proof (Z.div_le_mono a b 60). lia.
Qed.

Lemma foldr_min_le d (l : list Z) t : t ∈ l -> foldr Z.min d l <= t.
Proof.
  induction l as [|x l IH]; [intros H; inversion H|].
  intros [-> | H]%elem_of_cons; cbn [foldr]; [lia|].
  specialize (IH H). lia.
Qed.

Lemma foldr_max_ge d (l : list Z) t : t ∈ l -> t <= foldr Z.max d l.
Proof.
  induction l as [|x l IH]; [intros H; inversion H|].
  intros [-> | H]%elem_of_cons; cbn [foldr]; [lia|].
  specialize (IH H). lia.
Qed.

Lemma time_in_times (s : series) r : r ∈ s -> r.1.1 ∈ times s.
Proof.
  unfold times. induction s as [|x s IH]; [intros H; inversion H|].
  intros [-> | H]%elem_of_cons; cbn [map]; [left | right; auto].
Qed.

Lemma first_bin_le (s : series) r : r ∈ s -> first_bin s <= r.1.1.
Proof.
  intros H%time_in_times. unfold first_bin.
  pose proof (foldr_min_le (hd 0 (times s)) _ _ H).
  pose proof (floor_minute_le (foldr Z.min (hd 0 (times s)) (times s))). lia.
Qed.

Lemma le_last_bin (s : series) r : r ∈ s -> floor_minute r.1.1 <= last_bin s.
Proof.
  intros H%time_in_times. unfold last_bin.
  apply floor_minute_mono, foldr_max_ge, H.
Qed.

(** The bin index of a row names the minute the row falls in. *)
Lemma bin_of_minute (q t : Z) (i : nat) :
  MINUTE * q <= t ->
  bin_of (MINUTE * q) t = i <-> floor_minute t = MINUTE * q + 60 * Z.of_nat i.
Proof.
  unfold bin_of, floor_minute, MINUTE. intros Hle.
  replace (t - 60 * q) with (t + (- q) * 60) by lia.
  rewrite Z.div_add by lia.
  assert (q <= t / 60) by (apply Z.div_le_lower_bound; lia).
  lia.
Qed.

Lemma filter_agree {A} (P Q : A -> Prop) `{!forall x, Decision (P x)}
    `{!forall x, Decision (Q x)} (l : list A) :
  (forall x, x ∈ l -> P x <-> Q x) -> filter P l = filter Q l.
Proof.
  induction l as [|x l IH]; intros Hall; [reflexivity|].
  rewrite !filter_cons.
  assert (Hx : P x <-> Q x) by (apply Hall; left).
  rewrite IH by (intros y Hy; apply Hall; now right).
  repeat case_decide; tauto.
Qed.

Lemma Qsum_cons x l : Qsum (x :: l) = (x + Qsum l)%Q.
Proof. reflexivity. Qed.

(** One pass over the rows leaves in every bin the sums and the number
    of the rows of that bin. *)
Lemma accumulate_lookup origin (s : series) : forall (acc : list cell) i c,
  acc !! i = Some c ->
  exists c', accumulate origin s acc !! i = Some c'
    /\ (sum_ram c' == sum_ram c
          + Qsum ((fun r => r.1.2) <$> filter (fun r => bin_of origin r.1.1 = i) s))%Q
    /\ (sum_cpu c' == sum_cpu c
          + Qsum ((fun r => r.2) <$> filter (fun r => bin_of origin r.1.1 = i) s))%Q
    /\ nobs c' = (nobs c + length (filter (fun r => bin_of origin r.1.1 = i) s))%nat.
Proof.
  induction s as [|[[t ram] cpu] s IH]; intros acc i c Hc.
  - exists c. cbn. repeat split; [assumption | ring | ring | lia].
  - unfold accumulate in *. cbn [fold_left].
    destruct (decide (bin_of origin t = i)) as [Heq | Hne].
    + destruct (IH (alter (add_row ram cpu) (bin_of origin t) acc) i (add_row ram cpu c))
        as (c' & Hc' & Hr & Hu & Hn).
      { rewrite Heq, list_lookup_alter_eq, Hc. reflexivity. }
      exists c'. split; [exact Hc'|].
      rewrite (filter_cons_True (fun r : Z * Q * Q => bin_of origin r.1.1 = i))
        by exact Heq.
      cbn [add_row sum_ram sum_cpu nobs] in Hr, Hu, Hn.
      repeat split.
      * rewrite Hr, fmap_cons, Qsum_cons. cbn [fst snd].
        symmetry. apply Qplus_assoc.
      * rewrite Hu, fmap_cons, Qsum_cons. cbn [fst snd].
        symmetry. apply Qplus_assoc.
      * rewrite Hn. cbn [length]. now rewrite Nat.add_succ_r.
    + destruct (IH (alter (add_row ram cpu) (bin_of origin t) acc) i c)
        as (c' & Hc' & Hr & Hu & Hn).
      { rewrite list_lookup_alter_ne by assumption. exact Hc. }
      exists c'.
      rewrite (filter_cons_False (fun r : Z * Q * Q => bin_of origin r.1.1 = i))
        by exact Hne.
      auto.
Qed.

Lemma accumulate_length origin (s : series) : forall acc : list cell,
  length (accumulate origin s acc) = length acc.
Proof.
  induction s as [|[[t ram] cpu] s IH]; intros acc; [reflexivity|].
  unfold accumulate in *. cbn [fold_left]. now rewrite IH, length_alter.
Qed.

Lemma mean_of_spec total (vals : list Q) :
  (total == Qsum vals)%Q -> mean_of total (length vals) = arithmetic_mean vals.
Proof.
  intros H. destruct vals as [|v vals]; [reflexivity|].
  cbn [length mean_of arithmetic_mean]. f_equal.
  apply Qred_complete. now rewrite H.
Qed.

(** Resampling is bucketing: the frame that is charted has one point
    per whole minute from the first to the last sample, and each
    point is the mean of the samples of its minute. *)
Lemma resample_mean_buckets (s : series) :
  s <> [] ->
  resample_mean s = bucket_point s <$> minute_marks (first_bin s) (last_bin s).
Proof.
  intros Hne. unfold resample_mean. destruct s as [|r0 s0] eqn:Hs; [congruence|].
  rewrite <- Hs in *. clear Hs Hne r0 s0.
  set (origin := first_bin s).
  set (n := Z.to_nat ((last_bin s - origin) / MINUTE + 1)).
  apply list_eq. intros i.
  rewrite list_lookup_imap. unfold minute_marks. fold origin.
  change ((last_bin s - origin) / 60) with ((last_bin s - origin) / MINUTE). fold n.
  rewrite !list_lookup_fmap.
  destruct (decide (i < n)%nat) as [Hi | Hi].
  - destruct (accumulate_lookup origin s (replicate n (Cell 0 0 0)) i (Cell 0 0 0))
      as (c' & Hc' & Hr & Hu & Hn).
    { now apply lookup_replicate_2. }
    rewrite Hc', lookup_seq_lt by assumption. cbn [fmap option_fmap option_map].
    f_equal. unfold bucket_point. cbn [Nat.add].
    assert (Hq : origin = MINUTE * (origin / MINUTE)).
    { subst origin. unfold first_bin, floor_minute, MINUTE.
      rewrite Z.mul_comm, Z.div_mul by lia. lia. }
    assert (Hf : filter (fun r : Z * Q * Q => bin_of origin r.1.1 = i) s
                 = members (origin + 60 * Z.of_nat i) s).
    { unfold members. apply filter_agree. intros r Hr'.
      rewrite Hq at 1 2. apply bin_of_minute. rewrite <- Hq.
      now apply first_bin_le. }
    rewrite Hf in Hr, Hu, Hn. cbn [sum_ram sum_cpu nobs] in Hr, Hu, Hn.
    rewrite Qplus_0_l in Hr, Hu. cbn [Nat.add] in Hn.
    f_equal; [f_equal|].
    + pose proof (mean_of_spec _ _ Hr) as Hm.
      rewrite length_fmap in Hm. now rewrite Hn.
    + pose proof (mean_of_spec _ _ Hu) as Hm.
      rewrite length_fmap in Hm. now rewrite Hn.
  - rewrite lookup_seq_ge by lia.
    rewrite lookup_ge_None_2; [reflexivity|].
    rewrite accumulate_length, length_replicate. lia.
Qed.

(** No sample is left out: its minute is one of the marks. *)
Lemma minute_marked (s : series) r :
  r ∈ s -> floor_minute r.1.1 ∈ minute_marks (first_bin s) (last_bin s).
Proof.
  intros Hr. unfold minute_marks.
  pose proof (first_bin_le s r Hr) as Hlo.
  pose proof (le_last_bin s r Hr) as Hhi.
  assert (Hq : first_bin s = MINUTE * (first_bin s / MINUTE)).
  { unfold first_bin, floor_minute, MINUTE.
    rewrite Z.mul_comm, Z.div_mul by lia. lia. }
  set (i := bin_of (first_bin s) r.1.1).
  assert (Hi : floor_minute r.1.1 = first_bin s + 60 * Z.of_nat i).
  { rewrite Hq at 1. apply bin_of_minute; [now rewrite <- Hq|].
    subst i. now rewrite <- Hq. }
  apply list_elem_of_fmap. exists i. split; [exact Hi|].
  apply elem_of_seq. split; [lia|].
  assert (0 <= (last_bin s - first_bin s) / 60).
  { apply Z.div_pos; lia. }
  assert (Z.of_nat i <= (last_bin s - first_bin s) / 60).
  { apply Z.div_le_lower_bound; lia. }
  lia.
Qed.

End ResampleFacts.

(* ===================================================================== *)
(** * The chart *)
(* ===================================================================== *)

Section Renderer.
Variable E : env.
Variable self : UsageMonitor.

Lemma resampled_run w content df s :
  fs w !! log_path self = Some content ->
  Pandas.read_csv content = Ok df ->
  Pandas.index_by_time df = Ok s ->
  resampled self w = (Ok (Pandas.resample_mean s), w).
Proof.
  intros Hc Hdf Hs. unfold resampled, read_file. monad.
  now rewrite Hc, Hdf, Hs.
Qed.

Lemma plot_usage_run w pts :
  resampled self w = (Ok pts, w) ->
  plot_usage E self w
  = (Ok "graph.png", set_fs (fun m => <["graph.png" := savefig E pts]> m) w).
Proof. intros H. unfold plot_usage, write_file. monad. now rewrite H. Qed.

Lemma resampled_missing w :
  fs w !! log_path self = None ->
  resampled self w = (Raise (FileNotFoundError (log_path self)), w).
Proof. intros H. unfold resampled, read_file. monad. now rewrite H. Qed.

End Renderer.

Lemma scenario_frame :
  Pandas.read_csv (log_text (map sample_of Example.two_samples))
  = Ok [("2024-01-01 09:00:00", 400 # 10, 100 # 10)%Q;
        ("2024-01-01 09:00:30", 600 # 10, 200 # 10)%Q].
Proof. vm_compute. reflexivity. Qed.

Lemma scenario_series :
  Pandas.index_by_time
    [("2024-01-01 09:00:00", 400 # 10, 100 # 10)%Q;
     ("2024-01-01 09:00:30", 600 # 10, 200 # 10)%Q]
  = Ok [(Example.nine, (400 # 10)%Q, (100 # 10)%Q);
        (Example.nine + 30, (600 # 10)%Q, (200 # 10)%Q)].
Proof. vm_compute. reflexivity. Qed.

(** C1. The chart shows one-minute means.  Whenever the log of the day
    loads (it exists, parses, and its timestamps are dates) and holds at
    least one sample, [plot_usage] charts exactly one point per whole
    minute from the minute of the earliest sample to the minute of the
    latest one; the point of a minute carries the arithmetic mean of
    the RAM values and the arithmetic mean of the CPU values of the
    samples of that minute, and no value ([None], pandas' NaN) when the
    minute has no sample; every sample falls in one of these minutes.
    Every log the recorder writes while the clock shows a four-digit
    year loads, as the rows that were appended.  In particular the log
    with the samples (09:00:00, RAM 40, CPU 10) and (09:00:30, RAM 60,
    CPU 20) is charted as the single point 09:00 with RAM 50 and
    CPU 15. *)
Theorem chart_is_minute_means (E : env) (self : UsageMonitor) (w : world)
    (content : string) (df : Pandas.frame) (s : Pandas.series) :
  fs w !! log_path self = Some content ->
  Pandas.read_csv content = Ok df ->
  Pandas.index_by_time df = Ok s ->
  s <> [] ->
  let marks := minute_marks (Pandas.first_bin s) (Pandas.last_bin s) in
  let pts := bucket_point s <$> marks in
  resampled self w = (Ok pts, w)
  /\ plot_usage E self w
     = (Ok "graph.png", set_fs (fun m => <["graph.png" := savefig E pts]> m) w)
  /\ (forall r, r ∈ s -> Pandas.floor_minute r.1.1 ∈ marks)
  /\ (forall b, b ∈ marks -> b mod 60 = 0)
  /\ (forall rs : list reading,
        Forall (fun r => four_digit_year r.1.1) rs ->
        Pandas.read_csv (log_text (map sample_of rs)) = Ok (map sample_of rs)
        /\ Pandas.index_by_time (map sample_of rs) = Ok (map series_row rs))
  /\ (forall w0,
        fs w0 !! log_path self = Some (log_text (map sample_of Example.two_samples)) ->
        resampled self w0 = (Ok [(Example.nine, Some (50 # 1)%Q, Some (15 # 1)%Q)], w0)).
Proof.
  intros Hc Hdf Hs Hne marks pts.
  assert (Hres : resampled self w = (Ok pts, w)).
  { rewrite (resampled_run self w content df s) by assumption.
    subst pts marks. now rewrite ResampleFacts.resample_mean_buckets. }
  split; [exact Hres|]. split; [now apply plot_usage_run|].
  split; [intros r Hr; now apply ResampleFacts.minute_marked|]. split; [|split].
  - intros b [i [-> _]]%list_elem_of_fmap.
    unfold Pandas.first_bin, Pandas.floor_minute, Pandas.MINUTE.
    rewrite <- Z.mul_add_distr_l, Z.mul_comm. apply Z.mod_mul. lia.
  - intros rs Hrs. split.
    + apply LogFacts.read_csv_log, LogFacts.recordable_samples.
    + now apply CalendarFacts.index_by_time_log.
  - intros w0 H0.
    rewrite (resampled_run self w0 _ _ _ H0 scenario_frame scenario_series).
    reflexivity.
Qed.

(* ===================================================================== *)
(** * The report *)
(* ===================================================================== *)

Section Reporter.
Import TextFacts.
Variable E : env.
Variable self : UsageMonitor.

Lemma log_path_not_chart : "graph.png" <> log_path self.
Proof. unfold log_path. cbn. discriminate. Qed.

Lemma log_path_is_csv : Text.endswith (log_path self) ".csv" = true.
Proof. unfold log_path. rewrite <- app_assoc. apply endswith_app. Qed.

Lemma log_path_is_not_png : Text.endswith (log_path self) ".png" = false.
Proof.
  unfold log_path. rewrite <- app_assoc.
  apply endswith_app_ne; [reflexivity | discriminate].
Qed.

(** The dictionary [get_system_info] returns: the query itself cannot
    fail, and its five keys are always there. *)
Lemma get_system_info_run w :
  exists info, get_system_info E self w = (Ok info, w)
    /\ is_Some (info !! "os") /\ is_Some (info !! "memory_size")
    /\ is_Some (info !! "cpu_model") /\ is_Some (info !! "storage")
    /\ info !! "graphics"
       = Some (match gputil (the_host E) with
               | Some gpus => PList gpus
               | None => PStr "GPUtil not installed"
               end).
Proof.
  unfold get_system_info. eexists. split; [reflexivity|].
  destruct (gputil (the_host E)); simplify_map_eq; eauto 10.
Qed.

Lemma send_email_report_run w :
  exists subject body,
    send_email_report E self w
    = deliver_report E self subject body (log_event (Reported (now w)) w).
Proof.
  destruct (get_system_info_run (log_event (Reported (now w)) w))
    as (info & Hinfo & [v1 H1] & [v2 H2] & [v3 H3] & [v5 H5] & H4).
  unfold send_email_report, deliver_report, getitem, observe_now. monad.
  rewrite Hinfo, H1, H2, H3, H4, H5.
  eexists _, _. reflexivity.
Qed.

(** [send_email] with the chart and the log: the log is rewritten with
    a header before it is attached, then the message goes out. *)
Lemma send_email_run subject body w png content df :
  fs w !! "graph.png" = Some png ->
  fs w !! log_path self = Some content ->
  Pandas.read_csv content = Ok df ->
  send_email E self subject body ["graph.png"; log_path self] w
  = smtp_deliver E (report_message self subject body png (Pandas.to_csv df))
      (set_fs (fun m => <[log_path self := Pandas.to_csv df]> m) w).
Proof.
  intros Hpng Hlog Hdf.
  unfold send_email. cbn [fold_each]. unfold read_file, write_file. monad.
  rewrite Hpng. change (Text.endswith "graph.png" ".png") with true.
  cbv beta iota. rewrite Hlog, log_path_is_not_png, log_path_is_csv, Hdf.
  cbv beta iota. cbn [fs set_fs]. rewrite lookup_insert_eq. reflexivity.
Qed.

(** The whole report, when the log loads. *)
Lemma deliver_report_run subject body w content df s :
  fs w !! log_path self = Some content ->
  Pandas.read_csv content = Ok df ->
  Pandas.index_by_time df = Ok s ->
  let png := savefig E (Pandas.resample_mean s) in
  let csv := Pandas.to_csv df in
  let kept := <[log_path self := csv]> (<["graph.png" := png]> (fs w)) in
  let r := deliver_report E self subject body w in
  match smtp E (sessions w) with
  | Refused e =>
      r.1 = Raise e /\ fs r.2 = kept /\ outbox r.2 = outbox w
      /\ trace r.2 = trace w
  | Lost_after_send e =>
      r.1 = Raise e /\ fs r.2 = kept
      /\ outbox r.2 = (outbox w ++ [report_message self subject body png csv])%list
      /\ trace r.2 = trace w
  | Delivered =>
      r.1 = Ok (Monitor (email self) (password self) (recipient_emails self)
                  (Clock.strftime_date (now r.2)))
      /\ fs r.2 = delete (log_path self) (delete "graph.png" kept)
      /\ outbox r.2 = (outbox w ++ [report_message self subject body png csv])%list
      /\ trace r.2 = trace w
  end.
Proof.
  intros Hc Hdf Hs png csv kept r. subst r.
  unfold deliver_report. monad.
  rewrite (plot_usage_run E self w (Pandas.resample_mean s))
    by (now apply (resampled_run self w content df s)).
  rewrite (send_email_run subject body _ png content df);
    [| apply lookup_insert_eq
     | cbn [fs set_fs]; rewrite lookup_insert_ne by apply log_path_not_chart;
       exact Hc
     | exact Hdf].
  unfold smtp_deliver. cbn [sessions set_fs].
  destruct (smtp E (sessions w)) as [|e|e].
  - cbn [for_each]. unfold os_remove. monad. cbn [fs set_fs].
    fold png csv. fold kept.
    assert (H1 : kept !! "graph.png" = Some png).
    { subst kept. rewrite lookup_insert_ne by (apply not_eq_sym, log_path_not_chart).
      apply lookup_insert_eq. }
    rewrite H1. cbn [fs set_fs].
    assert (H2 : delete "graph.png" kept !! log_path self = Some csv).
    { rewrite lookup_delete_ne by apply log_path_not_chart.
      subst kept. apply lookup_insert_eq. }
    rewrite H2. cbn. auto.
  - cbn. auto.
  - cbn. auto.
Qed.

End Reporter.

(** C3. Cleanup follows delivery.  When the log of the day loads, so
    that the report reaches the mail server: if the SMTP session
    delivers, [send_email_report] returns normally, one more message is
    in the outbox, and neither the chart nor the log is on disk any
    more; if the session raises, that exception is what
    [send_email_report] raises and both files are still on disk -
    with nothing delivered when the session raised before the message
    went out, and with the message delivered all the same when it was
    the leaving of the session that raised. *)
Theorem cleanup_iff_delivered (E : env) (self : UsageMonitor) (w : world)
    (content : string) (df : Pandas.frame) (s : Pandas.series) :
  fs w !! log_path self = Some content ->
  Pandas.read_csv content = Ok df ->
  Pandas.index_by_time df = Ok s ->
  let r := send_email_report E self w in
  match smtp E (sessions w) with
  | Delivered =>
      (exists self', r.1 = Ok self')
      /\ fs r.2 !! "graph.png" = None
      /\ fs r.2 !! log_path self = None
      /\ length (outbox r.2) = S (length (outbox w))
  | Refused e =>
      r.1 = Raise e
      /\ is_Some (fs r.2 !! "graph.png")
      /\ is_Some (fs r.2 !! log_path self)
      /\ outbox r.2 = outbox w
  | Lost_after_send e =>
      r.1 = Raise e
      /\ is_Some (fs r.2 !! "graph.png")
      /\ is_Some (fs r.2 !! log_path self)
      /\ length (outbox r.2) = S (length (outbox w))
  end.
Proof.
  intros Hc Hdf Hs r. subst r.
  destruct (send_email_report_run E self w) as (subject & body & ->).
  pose proof (deliver_report_run E self subject body
                (log_event (Reported (now w)) w) content df s Hc Hdf Hs) as H.
  cbn zeta in H. cbn [sessions log_event] in H.
  destruct (smtp E (sessions w)) as [|e|e].
  - destruct H as (H1 & H2 & H3 & _). rewrite H1, H2, H3.
    repeat split.
    + eauto.
    + rewrite lookup_delete_ne by (apply not_eq_sym, log_path_not_chart).
      apply lookup_delete_eq.
    + apply lookup_delete_eq.
    + rewrite length_app. cbn. lia.
  - destruct H as (H1 & H2 & H3 & _). rewrite H1, H2, H3.
    repeat split.
    + rewrite lookup_insert_ne by (apply not_eq_sym, log_path_not_chart).
      rewrite lookup_insert_eq. eauto.
    + rewrite lookup_insert_eq. eauto.
  - destruct H as (H1 & H2 & H3 & _). rewrite H1, H2, H3.
    repeat split.
    + rewrite lookup_insert_ne by (apply not_eq_sym, log_path_not_chart).
      rewrite lookup_insert_eq. eauto.
    + rewrite lookup_insert_eq. eauto.
    + rewrite length_app. cbn. lia.
Qed.

Lemma resampled_pure (self : UsageMonitor) w : (resampled self w).2 = w.
Proof.
  unfold resampled, read_file. monad.
  destruct (fs w !! log_path self) as [c|]; [|reflexivity].
  destruct (Pandas.read_csv c) as [df|]; [|reflexivity].
  destruct (Pandas.index_by_time df); reflexivity.
Qed.

Lemma plot_usage_keeps_log (E : env) (self : UsageMonitor) w :
  fs (plot_usage E self w).2 !! log_path self = fs w !! log_path self.
Proof.
  unfold plot_usage, write_file. monad.
  pose proof (resampled_pure self w) as Hp.
  destruct (resampled self w) as [[pts|e] w1]; cbn in Hp; subst w1; [|reflexivity].
  cbn. apply lookup_insert_ne, log_path_not_chart.
Qed.

(** C6, as the program has it.  Until a report is composed the log only
    grows and holds sample rows only: [write_to_csv] appends one line to
    the text already there, [get_usage], [plot_usage] and
    [read_usage_data] leave the log as it is, and a log of appended
    samples reads back as those samples, none of them a header.
    [send_email], however, rewrites the log in place before attaching
    it: the header line Timestamp,RAM,CPU followed by the rows, each
    ended by a line feed. *)
Theorem log_grows_until_report (E : env) (to_string : Pandas.frame -> string)
    (self : UsageMonitor) :
  (forall ts ram cpu w,
     fs (write_to_csv self ts ram cpu w).2 !! log_path self
     = Some (default "" (fs w !! log_path self) ++ line_of (ts, ram, cpu)))
  /\ (forall w, fs (get_usage E self w).2 = fs w)
  /\ (forall w, fs (plot_usage E self w).2 !! log_path self = fs w !! log_path self)
  /\ (forall w, fs (read_usage_data to_string self w).2 = fs w)
  /\ (forall samples, Forall recordable samples ->
        Pandas.read_csv (log_text samples) = Ok samples)
  /\ (forall subject body w png content df,
        fs w !! "graph.png" = Some png ->
        fs w !! log_path self = Some content ->
        Pandas.read_csv content = Ok df ->
        fs (send_email E self subject body ["graph.png"; log_path self] w).2
          !! log_path self
        = Some ("Timestamp,RAM,CPU" ++ Pandas.NL
                ++ String.concat ""
                     (map (fun '(ts, ram, cpu) =>
                             Csv.writerow Pandas.NL
                               [ts; Float.repr ram; Float.repr cpu]) df))).
Proof.
  refine (conj _ (conj _ (conj _ (conj _ (conj _ _))))).
  - intros. rewrite write_to_csv_run. cbn [snd fs set_fs]. apply lookup_insert_eq.
  - intros. reflexivity.
  - intros. apply plot_usage_keeps_log.
  - intros w. unfold read_usage_data, read_frame, read_file. monad.
    destruct (fs w !! log_path self) as [c|]; [|reflexivity].
    destruct (Pandas.read_csv c); reflexivity.
  - apply LogFacts.read_csv_log.
  - intros subject body w png content df Hpng Hlog Hdf.
    rewrite (send_email_run E self subject body w png content df) by assumption.
    unfold smtp_deliver.
    destruct (smtp E _); cbn [snd fs set_fs]; apply lookup_insert_eq.
Qed.

(** C6 as stated does not hold: composing the report changes the log.
    On a machine whose mail server refuses, the log of the scenario
    (two sample rows ended by CR LF) is, after [send_email_report] has
    raised, a different text that starts with a header row. *)
Lemma report_rewrites_the_log :
  let w := Example.a_logged_world in
  let r := send_email_report Example.a_failing_env Example.a_monitor w in
  fs w !! "usage_2024-01-01.csv"
  = Some ("2024-01-01 09:00:00,40.0,10.0" ++ Csv.CRLF
          ++ "2024-01-01 09:00:30,60.0,20.0" ++ Csv.CRLF)
  /\ r.1 = Raise SMTPException
  /\ fs r.2 !! "usage_2024-01-01.csv"
     = Some ("Timestamp,RAM,CPU" ++ Pandas.NL
             ++ "2024-01-01 09:00:00,40.0,10.0" ++ Pandas.NL
             ++ "2024-01-01 09:00:30,60.0,20.0" ++ Pandas.NL).
Proof. vm_compute. repeat split; reflexivity. Qed.

(** C7, as the program has it.  When the log of the day is missing,
    [plot_usage] raises [FileNotFoundError] and leaves the machine as it
    was, so no chart is written; [send_email_report] raises the same
    exception without opening an SMTP session, delivering anything or
    touching a file. *)
Theorem missing_log_stops_report (E : env) (self : UsageMonitor) (w : world) :
  fs w !! log_path self = None ->
  plot_usage E self w = (Raise (FileNotFoundError (log_path self)), w)
  /\ let r := send_email_report E self w in
     r.1 = Raise (FileNotFoundError (log_path self))
     /\ fs r.2 = fs w /\ sessions r.2 = sessions w /\ outbox r.2 = outbox w.
Proof.
  intros Hnone.
  assert (Hplot : forall w0, fs w0 !! log_path self = None ->
            plot_usage E self w0 = (Raise (FileNotFoundError (log_path self)), w0)).
  { intros w0 H0. unfold plot_usage. monad. now rewrite resampled_missing. }
  split; [now apply Hplot|].
  destruct (send_email_report_run E self w) as (subject & body & ->).
  unfold deliver_report. monad. rewrite Hplot by exact Hnone.
  cbn. auto.
Qed.

(** C7 as stated does not hold for an empty log: because the column
    names are passed to [read_csv], an empty file reads as a frame
    without rows; [plot_usage] then returns the chart path, the chart is
    on disk, and [send_email_report] goes on to deliver the report. *)
Lemma empty_log_is_charted :
  let w := Example.an_empty_log_world in
  fs w !! "usage_2024-01-01.csv" = Some ""
  /\ (plot_usage Example.an_env Example.a_monitor w).1 = Ok "graph.png"
  /\ fs (plot_usage Example.an_env Example.a_monitor w).2 !! "graph.png" = Some "PNG"
  /\ length (outbox (send_email_report Example.an_env Example.a_monitor w).2) = 1%nat.
Proof. vm_compute. repeat split; reflexivity. Qed.

(** C8. A host without GPUtil is reported, not an error.  When the
    GPUtil module cannot be imported, [get_system_info] returns its
    dictionary (it does not raise and changes nothing), and the
    graphics entry is the marker text. *)
Theorem gpu_absence_is_reported (E : env) (self : UsageMonitor) (w : world) :
  gputil (the_host E) = None ->
  exists info,
    get_system_info E self w = (Ok info, w)
    /\ info !! "graphics" = Some (PStr "GPUtil not installed").
Proof.
  intros Hgpu.
  destruct (get_system_info_run E self w) as (info & Hrun & _ & _ & _ & _ & Hg).
  exists info. split; [exact Hrun|]. now rewrite Hg, Hgpu.
Qed.

(** C9. Without a sender, a password or a recipient nothing runs.  When
    the sender variable or the password variable is unset or empty, or
    the recipient list is empty, [main] returns at once and the machine
    is exactly as it was: no clock reading, no sample, no file, no
    mail. *)
Theorem main_refuses_incomplete_config (E : env) (RECEIVER : list string)
    (fuel : nat) (w : world) :
  truthy (getenv E "RESOURCE_MONITOR_SENDER_MAIL") = false
  \/ truthy (getenv E "RESOURCE_MONITOR_SENDER_PASSWORD") = false
  \/ RECEIVER = [] ->
  main E RECEIVER fuel w = (Ok tt, w).
Proof.
  unfold main. intros [-> | [-> | ->]]; [reflexivity | | ].
  - now rewrite andb_false_r.
  - now rewrite andb_false_r.
Qed.

(* ===================================================================== *)
(** * The loop *)
(* ===================================================================== *)

Section Scheduler.
Variable E : env.

Lemma loop_add n k m w :
  loop E (n + k) m w = (m' ← loop E n m; loop E k m') w.
Proof.
  revert m w. induction n as [|n IH]; intros m w; [reflexivity|].
  cbn [Nat.add loop]. monad.
  destruct (iteration E m w) as [[m1|e] w1]; [apply IH | reflexivity].
Qed.

(** An exception in a pass ends the loop whatever fuel is left. *)
Lemma loop_raise fuel m w e w' :
  iteration E m w = (Raise e, w') -> loop E (S fuel) m w = (Raise e, w').
Proof. intros H. cbn [loop]. monad. now rewrite H. Qed.

Lemma iteration_run m w t w1 :
  tick E m w = (Ok t, w1) ->
  iteration E m w
  = if String.eqb (Clock.strftime_time t) STOP_TIME
    then send_email_report E m w1 else (Ok m, w1).
Proof. intros H. unfold iteration. monad. rewrite H. now destruct (String.eqb _ _). Qed.

End Scheduler.

(** C10. A failed report ends the run.  Suppose the loop has made [n]
    passes and in the next one the clock shows STOP_TIME and
    [send_email_report] raises [e] - whether the chart, an attachment
    or the mail server failed.  Then the loop raises [e] whatever number
    of passes it would still have made, and so does [main]: the
    exception is not caught, and the machine is left exactly as it was
    when the report failed, so no further sample is recorded. *)
Theorem failed_report_ends_the_run (E : env) (n fuel : nat)
    (m0 m : UsageMonitor) (w0 w w1 wf : world) (t : Z) (e : exn) :
  loop E n m0 w0 = (Ok m, w) ->
  tick E m w = (Ok t, w1) ->
  String.eqb (Clock.strftime_time t) STOP_TIME = true ->
  send_email_report E m w1 = (Raise e, wf) ->
  loop E (n + S fuel) m0 w0 = (Raise e, wf)
  /\ (forall RECEIVER w00,
        truthy (getenv E "RESOURCE_MONITOR_SENDER_MAIL") = true ->
        truthy (getenv E "RESOURCE_MONITOR_SENDER_PASSWORD") = true ->
        RECEIVER <> [] ->
        __init__ E (default "" (getenv E "RESOURCE_MONITOR_SENDER_MAIL"))
          (default "" (getenv E "RESOURCE_MONITOR_SENDER_PASSWORD")) RECEIVER w00
        = (Ok m0, w0) ->
        main E RECEIVER (n + S fuel) w00 = (Raise e, wf)).
Proof.
  intros Hloop Htick Hstop Hfail.
  assert (Hrun : loop E (n + S fuel) m0 w0 = (Raise e, wf)).
  { rewrite loop_add. monad. rewrite Hloop.
    apply loop_raise. rewrite (iteration_run E m w t w1 Htick), Hstop. exact Hfail. }
  split; [exact Hrun|].
  intros RECEIVER w00 Hs Hp Hr Hnew. unfold main. rewrite Hs, Hp.
  destruct RECEIVER as [|r rs]; [congruence|]. cbn [andb]. monad.
  now rewrite Hnew, Hrun.
Qed.

(** C4, as the program has it.  The recorder writes to the file named
    by the day the monitor has stored, not by the clock:
    [write_to_csv] touches no file but [usage_<today>.csv] and neither
    it nor [get_usage] changes [today].  The stored day is read from
    the clock when the monitor is created and again only at the end of
    a report that was delivered; a pass of the loop that sends no report
    keeps the monitor as it is. *)
Theorem recorder_follows_stored_day (E : env) (self : UsageMonitor) :
  (forall ts ram cpu w path,
     path <> "usage_" ++ today self ++ ".csv" ->
     fs (write_to_csv self ts ram cpu w).2 !! path = fs w !! path)
  /\ (forall ts ram cpu w,
        is_Some (fs (write_to_csv self ts ram cpu w).2
                   !! ("usage_" ++ today self ++ ".csv")))
  /\ (forall email password recipients w,
        exists t, __init__ E email password recipients w
                  = (Ok (Monitor email password recipients (Clock.strftime_date t)),
                     (datetime_now E w).2)
                  /\ (datetime_now E w).1 = Ok t)
  /\ (forall w self' w',
        send_email_report E self w = (Ok self', w') ->
        today self' = Clock.strftime_date (now w'))
  /\ (forall w t w1,
        tick E self w = (Ok t, w1) ->
        String.eqb (Clock.strftime_time t) STOP_TIME = false ->
        iteration E self w = (Ok self, w1)).
Proof.
  refine (conj _ (conj _ (conj _ (conj _ _)))).
  - intros ts ram cpu w path Hne. rewrite write_to_csv_run. cbn [snd fs set_fs].
    apply lookup_insert_ne. unfold log_path. congruence.
  - intros. rewrite write_to_csv_run. cbn [snd fs set_fs].
    fold (log_path self). rewrite lookup_insert_eq. eauto.
  - intros. eexists. split; reflexivity.
  - intros w self' w' H.
    destruct (send_email_report_run E self w) as (subject & body & Hrun).
    rewrite Hrun in H. unfold deliver_report in H. monad.
    destruct (plot_usage E self _) as [[p|?] wa]; [|discriminate].
    destruct (send_email E self subject body _ wa) as [[?|?] wb]; [|discriminate].
    destruct (for_each _ os_remove wb) as [[?|?] wc]; [|discriminate].
    cbn in H. injection H as <- <-. reflexivity.
  - intros w t w1 Htick Hstop.
    now rewrite (iteration_run E self w t w1 Htick), Hstop.
Qed.

(** C4 as stated does not hold: the file written is not always the one
    of the current date.  On a machine where the second 23:59:59 is
    lost between two looks at the clock, no report is sent, the stored
    day stays 2024-01-01, and the sample taken at 00:00:00 of 2024-01-02
    is appended to the log of 2024-01-01, while the current date has no
    log. *)
Lemma stale_day_is_written :
  let w := (main Example.a_jittery_env ["ops@example.org"] 2
              (Example.a_world ∅ 1704153598)).2 in
  Clock.strftime_date (now w) = "2024-01-02"
  /\ fs w !! "usage_2024-01-01.csv"
     = Some ("2024-01-01 23:59:58,40.0,10.0" ++ Csv.CRLF
             ++ "2024-01-02 00:00:00,40.0,10.0" ++ Csv.CRLF)
  /\ fs w !! "usage_2024-01-02.csv" = None.
Proof. vm_compute. repeat split; reflexivity. Qed.

(* ===================================================================== *)
(** * The daily trigger *)
(* ===================================================================== *)

Module TriggerFacts.

(** Second by second through a day: the face of the clock is
    23:59:59 in the last second only. *)
Lemma stop_table :
  forallb (fun s => Bool.eqb (String.eqb (Clock.strftime_time s) STOP_TIME)
                             (s =? 86399))
          (count_from (Z.to_nat 86400) 0) = true.
Proof. vm_compute. reflexivity. Qed.

Lemma strftime_time_mod t :
  Clock.strftime_time t = Clock.strftime_time (t mod Clock.DAY).
Proof.
  unfold Clock.strftime_time, Clock.second_of_day, Clock.DAY.
  now rewrite Z.mod_mod by lia.
Qed.

(** The test of the loop holds exactly in the last second of a day. *)
Lemma stop_time_spec t :
  String.eqb (Clock.strftime_time t) STOP_TIME = (t mod Clock.DAY =? 86399).
Proof.
  rewrite strftime_time_mod.
  apply Bool.eqb_prop, (CalendarFacts.table_lookup _ _ _ _ stop_table).
  pose proof (Z.mod_pos_bound t Clock.DAY). unfold Clock.DAY in *. lia.
Qed.

Lemma stop_second_iff day t :
  Clock.date_of t = day /\ t mod Clock.DAY = 86399 <-> t = stop_second day.
Proof.
  unfold Clock.date_of, stop_second, Clock.DAY. split.
  - intros [<- Hm]. pose proof (Z.div_mod t 86400). lia.
  - intros ->. split.
    + symmetry. apply (Z.div_unique _ _ day 86399); lia.
    + symmetry. apply (Z.mod_unique _ _ day 86399); lia.
Qed.

(** On a given day the test holds at the second 23:59:59 of that day
    and at no other. *)
Lemma shows_stop_on day t :
  shows_stop_time t /\ Clock.date_of t = day <-> t = stop_second day.
Proof.
  unfold shows_stop_time. rewrite stop_time_spec, Z.eqb_eq.
  rewrite <- stop_second_iff. tauto.
Qed.

Lemma filter_absent (l : list Z) x :
  x ∉ l -> filter (fun t => t = x) l = [].
Proof.
  induction l as [|y l IH]; intros Hx; [reflexivity|].
  apply not_elem_of_cons in Hx as [Hne Hx].
  rewrite filter_cons. destruct (decide (y = x)); [congruence|]. now apply IH.
Qed.

Lemma filter_this (l : list Z) x :
  NoDup l -> x ∈ l -> filter (fun t => t = x) l = [x].
Proof.
  induction 1 as [|y l Hy Hnd IH]; intros Hx; [inversion Hx|].
  rewrite filter_cons. destruct (decide (y = x)) as [-> | Hne].
  - f_equal. now apply filter_absent.
  - apply elem_of_cons in Hx as [-> | Hx]; [congruence|]. now apply IH.
Qed.

(** ** What the steps of a report keep *)

Section Keeps.
Variable E : env.
Variable R : world -> world -> Prop.
Hypothesis R_refl : forall w, R w w.
Hypothesis R_trans : forall a b c, R a b -> R b c -> R a c.
Hypothesis R_fs : forall f w, R w (set_fs f w).
Hypothesis R_clock : forall w, R w (datetime_now E w).2.
Hypothesis R_smtp : forall msg w, R w (smtp_deliver E msg w).2.

Lemma keeps_ret {A} (a : A) : keeps R (mret a).
Proof. intros w. apply R_refl. Qed.

Lemma keeps_bind {A B} (m : M A) (f : A -> M B) :
  keeps R m -> (forall a, keeps R (f a)) -> keeps R (m ≫= f).
Proof.
  intros Hm Hf w. unfold mbind, M_bind.
  pose proof (Hm w) as H1.
  destruct (m w) as [[a|e] w1]; cbn [snd] in *; [|exact H1].
  exact (R_trans _ _ _ H1 (Hf a w1)).
Qed.

Lemma keeps_call {A} (o : outcome A) : keeps R (call o).
Proof. intros w. apply R_refl. Qed.

Lemma keeps_read_file path : keeps R (read_file path).
Proof.
  intros w. unfold read_file. destruct (fs w !! path); apply R_refl.
Qed.

Lemma keeps_write_file path data : keeps R (write_file path data).
Proof. intros w. apply R_fs. Qed.

Lemma keeps_os_remove path : keeps R (os_remove path).
Proof.
  intros w. unfold os_remove. destruct (fs w !! path); [apply R_fs | apply R_refl].
Qed.

Lemma keeps_for_each {A} (xs : list A) (body : A -> M unit) :
  (forall x, keeps R (body x)) -> keeps R (for_each xs body).
Proof.
  intros Hb. induction xs as [|x xs IH]; cbn [for_each].
  - apply keeps_ret.
  - apply keeps_bind; [apply Hb | intros _; apply IH].
Qed.

Lemma keeps_fold_each {A S} (xs : list A) (body : S -> A -> M S) :
  (forall s x, keeps R (body s x)) -> forall s, keeps R (fold_each xs s body).
Proof.
  intros Hb. induction xs as [|x xs IH]; intros s; cbn [fold_each].
  - apply keeps_ret.
  - apply keeps_bind; [apply Hb | intros s'; apply IH].
Qed.

Ltac keeps_steps :=
  repeat first
    [ apply keeps_ret | apply keeps_call | apply keeps_read_file
    | apply keeps_write_file | apply keeps_os_remove
    | exact R_clock | exact (R_smtp _)
    | apply keeps_for_each; intros
    | apply keeps_fold_each; intros
    | apply keeps_bind; [| intros]
    | match goal with |- keeps R (if ?b then _ else _) => destruct b end ].

Lemma keeps_plot_usage self : keeps R (plot_usage E self).
Proof. unfold plot_usage, resampled. keeps_steps. Qed.

Lemma keeps_send_email self subject body attachments :
  keeps R (send_email E self subject body attachments).
Proof. unfold send_email. keeps_steps. Qed.

Lemma keeps_deliver_report self subject body :
  keeps R (deliver_report E self subject body).
Proof.
  unfold deliver_report. keeps_steps;
    first [apply keeps_plot_usage | apply keeps_send_email].
Qed.

End Keeps.

(** A report adds its own entry to the trace and nothing else. *)
Lemma send_email_report_trace E self w :
  trace (send_email_report E self w).2 = Reported (now w) :: trace w.
Proof.
  destruct (send_email_report_run E self w) as (subject & body & ->).
  assert (H : keeps same_trace (deliver_report E self subject body)).
  { apply (keeps_deliver_report E); unfold same_trace.
    - reflexivity.
    - congruence.
    - reflexivity.
    - reflexivity.
    - intros msg w0. unfold smtp_deliver. now destruct (smtp E _). }
  exact (H (log_event (Reported (now w)) w)).
Qed.

(** While the clock is not set back, it is no earlier after a report
    than before. *)
Lemma send_email_report_later E self w :
  forward E -> now w <= now (send_email_report E self w).2.
Proof.
  intros Hfw.
  destruct (send_email_report_run E self w) as (subject & body & ->).
  assert (H : keeps not_before (deliver_report E self subject body)).
  { apply (keeps_deliver_report E); unfold not_before.
    - intros ?. split; [reflexivity | lia].
    - intros a b c [? ?] [? ?]. split; [congruence | lia].
    - intros f w0. split; [reflexivity | cbn; lia].
    - intros w0. split; [reflexivity|]. cbn. specialize (Hfw (clock_reads w0)). lia.
    - intros msg w0. unfold smtp_deliver.
      destruct (smtp E _); cbn; split; reflexivity || lia. }
  exact (proj2 (H (log_event (Reported (now w)) w))).
Qed.

(** A tick always gets to its test of the clock; the reading is the
    clock at the start, moved by the second slept and by what the two
    looks at the clock add. *)
Lemma tick_run E m w :
  exists t w1, tick E m w = (Ok t, w1)
    /\ trace w1 = Checked t :: trace w /\ now w1 = t
    /\ t = now w + elapse E (clock_reads w) + 1 + elapse E (S (clock_reads w)).
Proof.
  unfold tick, get_usage, write_to_csv, append_file, time_sleep, datetime_now,
    psutil_cpu_percent, psutil_virtual_memory_percent, observe.
  monad. cbn. eexists _, _. split; [reflexivity|]. cbn. repeat split.
Qed.

(** ** The reports are the tests that showed the stop time *)

Lemma iteration_reported E m w :
  reported_at_stops w -> reported_at_stops (iteration E m w).2.
Proof.
  unfold reported_at_stops. intros Hrep.
  destruct (tick_run E m w) as (t & w1 & Htick & Htr & Hnow & _).
  rewrite (iteration_run E m w t w1 Htick).
  destruct (String.eqb (Clock.strftime_time t) STOP_TIME) eqn:Hstop.
  - rewrite send_email_report_trace, Htr, Hnow. cbn [checks reports].
    rewrite filter_cons_True by exact Hstop. now rewrite Hrep.
  - cbn [snd]. rewrite Htr. cbn [checks reports].
    rewrite filter_cons_False; [exact Hrep|].
    unfold shows_stop_time. now rewrite Hstop.
Qed.

Lemma loop_reported E fuel : forall m w,
  reported_at_stops w -> reported_at_stops (loop E fuel m w).2.
Proof.
  induction fuel as [|fuel IH]; intros m w Hw; [exact Hw|].
  cbn [loop]. monad.
  pose proof (iteration_reported E m w Hw) as H1.
  destruct (iteration E m w) as [[m1|e] w1]; cbn [snd] in H1; [now apply IH | exact H1].
Qed.

Lemma main_reported E RECEIVER fuel w :
  reported_at_stops w -> reported_at_stops (main E RECEIVER fuel w).2.
Proof.
  intros Hw. unfold main.
  destruct (truthy _ && truthy _ && _); [|exact Hw].
  monad. unfold __init__, datetime_now. monad. cbn.
  set (w1 := World _ _ _ _ _ _ _ _).
  pose proof (loop_reported E fuel
                (Monitor (default "" (getenv E "RESOURCE_MONITOR_SENDER_MAIL"))
                   (default "" (getenv E "RESOURCE_MONITOR_SENDER_PASSWORD"))
                   RECEIVER (Clock.strftime_date (now w1))) w1 Hw) as H2.
  subst w1. cbn [now] in H2.
  destruct (loop E fuel _ _) as [[?|?] w2]; exact H2.
Qed.

(** ** While the clock is not set back, every test reads a later second *)

Lemma iteration_increasing E m w :
  forward E -> increasing w -> increasing (iteration E m w).2.
Proof.
  intros Hfw (Hnd & Hle).
  destruct (tick_run E m w) as (t & w1 & Htick & Htr & Hnow & Ht).
  pose proof (Hfw (clock_reads w)). pose proof (Hfw (S (clock_reads w))).
  rewrite (iteration_run E m w t w1 Htick).
  assert (Hfresh : t ∉ checks (trace w)).
  { intros Hin. specialize (Hle t Hin). lia. }
  destruct (String.eqb (Clock.strftime_time t) STOP_TIME).
  - pose proof (send_email_report_later E m w1 Hfw) as Hnow'.
    unfold increasing. rewrite send_email_report_trace, Htr. cbn [checks].
    split; [now constructor|].
    intros x [-> | Hx]%elem_of_cons; [lia|]. specialize (Hle x Hx). lia.
  - cbn [snd]. unfold increasing. rewrite Htr. cbn [checks].
    split; [now constructor|].
    intros x [-> | Hx]%elem_of_cons; [lia|]. specialize (Hle x Hx). lia.
Qed.

Lemma loop_increasing E fuel : forward E -> forall m w,
  increasing w -> increasing (loop E fuel m w).2.
Proof.
  intros Hfw. induction fuel as [|fuel IH]; intros m w Hw; [exact Hw|].
  cbn [loop]. monad.
  pose proof (iteration_increasing E m w Hfw Hw) as H1.
  destruct (iteration E m w) as [[m1|e] w1]; cbn [snd] in H1; [now apply IH | exact H1].
Qed.

Lemma main_increasing E RECEIVER fuel w :
  forward E -> increasing w -> increasing (main E RECEIVER fuel w).2.
Proof.
  intros Hfw Hw. unfold main.
  destruct (truthy _ && truthy _ && _); [|exact Hw].
  monad. unfold __init__, datetime_now. monad. cbn.
  set (w1 := World _ _ _ _ _ _ _ _).
  assert (H1 : increasing w1).
  { destruct Hw as (Hnd & Hle). split; [assumption|].
    intros t Ht. cbn. specialize (Hle t Ht). specialize (Hfw (clock_reads w)). lia. }
  pose proof (loop_increasing E fuel Hfw
                (Monitor (default "" (getenv E "RESOURCE_MONITOR_SENDER_MAIL"))
                   (default "" (getenv E "RESOURCE_MONITOR_SENDER_PASSWORD"))
                   RECEIVER (Clock.strftime_date (now w1))) w1 H1) as H2.
  subst w1. cbn [now] in H2.
  destruct (loop E fuel _ _) as [[?|?] w2]; exact H2.
Qed.

(** A pass tests the clock once. *)
Lemma loop_checks E fuel : forall m w,
  (length (checks (trace (loop E fuel m w).2))
   <= length (checks (trace w)) + fuel)%nat.
Proof.
  induction fuel as [|fuel IH]; intros m w; [cbn; lia|].
  cbn [loop]. monad.
  destruct (tick_run E m w) as (t & w1 & Htick & Htr & _ & _).
  assert (Hit : length (checks (trace (iteration E m w).2))
                = S (length (checks (trace w)))).
  { rewrite (iteration_run E m w t w1 Htick).
    destruct (String.eqb _ _).
    - rewrite send_email_report_trace. now rewrite Htr.
    - cbn [snd]. now rewrite Htr. }
  destruct (iteration E m w) as [[m1|e] w2]; cbn [snd] in *.
  - specialize (IH m1 w2). lia.
  - lia.
Qed.

Lemma main_checks E RECEIVER fuel w :
  trace w = [] -> (length (checks (trace (main E RECEIVER fuel w).2)) <= fuel)%nat.
Proof.
  intros Hw. unfold main.
  destruct (truthy _ && truthy _ && _); [|cbn; rewrite Hw; cbn; lia].
  monad. unfold __init__, datetime_now. monad. cbn.
  set (w1 := World _ _ _ _ _ _ _ _).
  pose proof (loop_checks E fuel
                (Monitor (default "" (getenv E "RESOURCE_MONITOR_SENDER_MAIL"))
                   (default "" (getenv E "RESOURCE_MONITOR_SENDER_PASSWORD"))
                   RECEIVER (Clock.strftime_date (now w1))) w1) as H.
  assert (Htr : trace w1 = []) by exact Hw.
  rewrite Htr in H. subst w1. cbn [now] in H.
  destruct (loop E fuel _ _) as [[?|?] w2]; exact H.
Qed.

End TriggerFacts.

(** C5, as the program has it.  In every run of the script from a
    machine with an empty trace the loop tests the clock once per pass
    (the string comparison of the clock reading with STOP_TIME, made
    after the one-second sleep), and [send_email_report] is called once
    at each test that reads 23:59:59 and at no other moment.  So the
    calls that fall on a day are the tests that read the second
    23:59:59 of that day: none when no test read it, however far the
    clock has gone past it; and, on a machine whose clock is never set
    back, exactly one when a test read it. *)
Theorem report_at_each_observed_stop (E : env) (RECEIVER : list string)
    (fuel : nat) (w0 : world) :
  trace w0 = [] ->
  let w := (main E RECEIVER fuel w0).2 in
  (length (checks (trace w)) <= fuel)%nat
  /\ reports (trace w) = filter shows_stop_time (checks (trace w))
  /\ (forall day,
        reports_on day (trace w)
        = filter (fun t => t = stop_second day) (checks (trace w)))
  /\ (forall day,
        stop_second day ∉ checks (trace w) -> reports_on day (trace w) = [])
  /\ (forward E ->
      forall day,
        stop_second day ∈ checks (trace w) ->
        reports_on day (trace w) = [stop_second day]).
Proof.
  intros Hempty w. split; [now apply TriggerFacts.main_checks|].
  assert (Hrep : reported_at_stops w).
  { apply TriggerFacts.main_reported. unfold reported_at_stops. now rewrite Hempty. }
  unfold reported_at_stops in Hrep.
  assert (Hsame : forall day,
            reports_on day (trace w)
            = filter (fun t => t = stop_second day) (checks (trace w))).
  { intros day. unfold reports_on. rewrite Hrep, list_filter_filter.
    apply list_filter_iff. intros t. rewrite <- TriggerFacts.shows_stop_on. tauto. }
  split; [exact Hrep|]. split; [exact Hsame|]. split.
  - intros day Hout. rewrite Hsame. now apply TriggerFacts.filter_absent.
  - intros Hfw day Hin. rewrite Hsame.
    apply TriggerFacts.filter_this; [|exact Hin].
    apply (TriggerFacts.main_increasing E RECEIVER fuel w0 Hfw).
    split; rewrite Hempty; cbn; [constructor | intros t Ht; inversion Ht].
Qed.

(** C5 as stated does not hold: a day can reach 23:59:59 without a
    report.  On a machine where one second is lost just before the
    first test, a run started at 23:59:58 of 2024-01-01 tests the clock
    at 00:00:00 and at 00:00:01 of 2024-01-02: the clock has gone past
    23:59:59 of 2024-01-01, and [send_email_report] was not called, on
    that day or at all; no SMTP session was opened. *)
Lemma skipped_stop_second_sends_no_report :
  let w0 := Example.a_world ∅ 1704153598 in
  let w := (main Example.a_jittery_env ["ops@example.org"] 2 w0).2 in
  Clock.strftime (now w0) = "2024-01-01 23:59:58"
  /\ now w0 < stop_second 19723 < now w
  /\ map Clock.strftime (checks (trace w))
     = ["2024-01-02 00:00:01"; "2024-01-02 00:00:00"]
  /\ reports_on 19723 (trace w) = []
  /\ reports (trace w) = []
  /\ sessions w = 0%nat.
Proof. vm_compute. repeat split; reflexivity. Qed.

(** Nor does it hold on a machine whose clock is set back: when the
    clock is put back by a second after the report of 23:59:59, the
    next test reads 23:59:59 of the same day again and a second report
    is sent for that day. *)
Lemma set_back_clock_reports_twice :
  let w0 := Example.a_world ∅ 1704153598 in
  let w := (main Example.a_set_back_env ["ops@example.org"] 2 w0).2 in
  reports_on 19723 (trace w) = [stop_second 19723; stop_second 19723]
  /\ length (outbox w) = 2%nat.
Proof. vm_compute. repeat split; reflexivity. Qed.

(* ===================================================================== *)
(** * The theorems at work on the example machine *)
(* ===================================================================== *)

Lemma log_round_trip_witness :
  let self := Example.a_monitor in
  let samples := map sample_of Example.two_samples in
  let w' := (append_all self samples Example.a_late_world).2 in
  fs Example.a_late_world !! log_path self = None
  /\ read_frame self w' = (Ok samples, w').
Proof.
  split; [reflexivity|].
  apply (log_round_trip Example.an_env (fun _ => "") Example.a_monitor
           Example.a_late_world Example.two_samples); [reflexivity | discriminate].
Defined.

Lemma chart_is_minute_means_witness :
  plot_usage Example.an_env Example.a_monitor Example.a_logged_world
  = (Ok "graph.png",
     set_fs (fun m => <["graph.png" :=
                savefig Example.an_env
                  [(Example.nine, Some (50 # 1)%Q, Some (15 # 1)%Q)]]> m)
            Example.a_logged_world).
Proof.
  apply (chart_is_minute_means Example.an_env Example.a_monitor
           Example.a_logged_world _ _ _ eq_refl scenario_frame scenario_series).
  discriminate.
Defined.

Lemma cleanup_iff_delivered_witness :
  (let r := send_email_report Example.an_env Example.a_monitor Example.a_logged_world in
   fs r.2 !! "graph.png" = None /\ fs r.2 !! "usage_2024-01-01.csv" = None)
  /\ (let r := send_email_report Example.a_failing_env Example.a_monitor
                 Example.a_logged_world in
      r.1 = Raise SMTPException
      /\ is_Some (fs r.2 !! "graph.png")
      /\ is_Some (fs r.2 !! "usage_2024-01-01.csv")
      /\ outbox r.2 = [])
  /\ (let r := send_email_report Example.a_hanging_env Example.a_monitor
                 Example.a_logged_world in
      r.1 = Raise SMTPException
      /\ is_Some (fs r.2 !! "graph.png")
      /\ is_Some (fs r.2 !! "usage_2024-01-01.csv")
      /\ length (outbox r.2) = 1%nat).
Proof.
  split; [|split].
  - destruct (cleanup_iff_delivered Example.an_env Example.a_monitor
                Example.a_logged_world _ _ _ eq_refl scenario_frame scenario_series)
      as (_ & H1 & H2 & _).
    split; [exact H1 | exact H2].
  - destruct (cleanup_iff_delivered Example.a_failing_env Example.a_monitor
                Example.a_logged_world _ _ _ eq_refl scenario_frame scenario_series)
      as (H1 & H2 & H3 & H4).
    split; [exact H1 | split; [exact H2 | split; [exact H3 | exact H4]]].
  - destruct (cleanup_iff_delivered Example.a_hanging_env Example.a_monitor
                Example.a_logged_world _ _ _ eq_refl scenario_frame scenario_series)
      as (H1 & H2 & H3 & H4).
    split; [exact H1 | split; [exact H2 | split; [exact H3 | exact H4]]].
Defined.

Lemma missing_log_stops_report_witness :
  fs Example.a_late_world !! log_path Example.a_monitor = None
  /\ plot_usage Example.an_env Example.a_monitor Example.a_late_world
     = (Raise (FileNotFoundError "usage_2024-01-01.csv"), Example.a_late_world).
Proof.
  split; [reflexivity|].
  apply (missing_log_stops_report Example.an_env Example.a_monitor Example.a_late_world).
  reflexivity.
Defined.

Lemma gpu_absence_is_reported_witness :
  gputil (the_host Example.an_env) = None
  /\ exists info,
       get_system_info Example.an_env Example.a_monitor Example.a_late_world
       = (Ok info, Example.a_late_world)
       /\ info !! "graphics" = Some (PStr "GPUtil not installed").
Proof.
  split; [reflexivity|].
  apply (gpu_absence_is_reported Example.an_env Example.a_monitor Example.a_late_world).
  reflexivity.
Defined.

Lemma main_refuses_incomplete_config_witness :
  main Example.an_env [] 5 Example.a_late_world = (Ok tt, Example.a_late_world).
Proof.
  apply (main_refuses_incomplete_config Example.an_env [] 5 Example.a_late_world).
  right. right. reflexivity.
Defined.

Lemma report_at_each_observed_stop_witness :
  let w := (main Example.an_env ["ops@example.org"] 4 Example.a_late_world).2 in
  trace Example.a_late_world = []
  /\ forward Example.an_env
  /\ stop_second 19723 ∈ checks (trace w)
  /\ reports_on 19723 (trace w) = [stop_second 19723]
  /\ reports_on 19724 (trace w) = [].
Proof.
  split; [reflexivity|].
  assert (Hfw : forward Example.an_env) by (intros k; cbn; lia).
  split; [exact Hfw|].
  assert (Hin : stop_second 19723
                ∈ checks (trace (main Example.an_env ["ops@example.org"] 4
                                  Example.a_late_world).2)).
  { vm_compute. right. right. left. }
  split; [exact Hin|].
  destruct (report_at_each_observed_stop Example.an_env ["ops@example.org"] 4
              Example.a_late_world eq_refl) as (_ & _ & _ & Hnone & Hone).
  split; [exact (Hone Hfw 19723 Hin)|].
  apply Hnone. vm_compute.
  intros H. repeat (apply elem_of_cons in H as [H | H]; [discriminate H|]).
  inversion H.
Defined.

Lemma failed_report_ends_the_run_witness :
  let E := Example.a_failing_env in
  let m := Example.a_monitor in
  let w := (loop E 1 m Example.a_late_world).2 in
  let wf := (send_email_report E m (tick E m w).2).2 in
  loop E 1 m Example.a_late_world = (Ok m, w)
  /\ loop E (1 + 4) m Example.a_late_world = (Raise SMTPException, wf).
Proof.
  split; [vm_compute; reflexivity|].
  apply (failed_report_ends_the_run Example.a_failing_env 1 3 Example.a_monitor
           Example.a_monitor Example.a_late_world
           (loop Example.a_failing_env 1 Example.a_monitor Example.a_late_world).2
           (tick Example.a_failing_env Example.a_monitor
              (loop Example.a_failing_env 1 Example.a_monitor Example.a_late_world).2).2
           _ 1704153599 SMTPException);
    vm_compute; reflexivity.
Defined.

(* ===================================================================== *)
(** * Further properties of the methods *)
(* ===================================================================== *)

Lemma send_email_report_subject (E : env) (self : UsageMonitor) w :
  exists body,
    send_email_report E self w
    = deliver_report E self "Daily CPU and RAM Usage Report | i-Tips" body
        (log_event (Reported (now w)) w).
Proof.
  destruct (get_system_info_run E self (log_event (Reported (now w)) w))
    as (info & Hinfo & [v1 H1] & [v2 H2] & [v3 H3] & [v5 H5] & H4).
  unfold send_email_report, deliver_report, getitem, observe_now. monad.
  rewrite Hinfo, H1, H2, H3, H4, H5.
  eexists. reflexivity.
Qed.

(** X1. What the delivered report holds.  When the log loads and the
    mail server delivers, [send_email_report] puts exactly one message
    in the outbox: from the monitor's address, to the recipients joined
    by a comma and a space, with the fixed subject, and with three
    parts in this order - the text, the chart that was just written,
    and the log as it was rewritten, that is with the header row
    Timestamp,RAM,CPU in front of its rows. *)
Theorem report_carries_chart_and_headed_log (E : env) (self : UsageMonitor)
    (w : world) (content : string) (df : Pandas.frame) (s : Pandas.series) :
  fs w !! log_path self = Some content ->
  Pandas.read_csv content = Ok df ->
  Pandas.index_by_time df = Ok s ->
  smtp E (sessions w) = Delivered ->
  exists body,
    outbox (send_email_report E self w).2
    = (outbox w
       ++ [Message (email self) (Text.join ", " (recipient_emails self))
             "Daily CPU and RAM Usage Report | i-Tips"
             [MIMEText body;
              MIMEImage "graph.png" (savefig E (Pandas.resample_mean s));
              MIMEApplication (basename (log_path self))
                ("Timestamp,RAM,CPU" ++ Pandas.NL
                 ++ String.concat ""
                      (map (fun '(ts, ram, cpu) =>
                              Csv.writerow Pandas.NL
                                [ts; Float.repr ram; Float.repr cpu]) df))]])%list.
Proof.
  intros Hc Hdf Hs Hsmtp.
  destruct (send_email_report_subject E self w) as (body & ->).
  exists body.
  pose proof (deliver_report_run E self "Daily CPU and RAM Usage Report | i-Tips" body
                (log_event (Reported (now w)) w) content df s Hc Hdf Hs) as H.
  cbn zeta in H. cbn [sessions log_event] in H. rewrite Hsmtp in H.
  destruct H as (_ & _ & H & _). exact H.
Qed.

Lemma send_email_attach (E : env) (self : UsageMonitor) subject body attachments :
  send_email E self subject body attachments
  = (msg ← fold_each attachments
             (Message (email self) (Text.join ", " (recipient_emails self))
                      subject [MIMEText body]) attach;
     smtp_deliver E msg).
Proof. reflexivity. Qed.

Lemma attach_missing msg a w :
  fs w !! a = None -> attach msg a w = (Raise (FileNotFoundError a), w).
Proof. intros H. unfold attach, read_file. monad. now rewrite H. Qed.

Lemma attach_quiet msg a w :
  let r := attach msg a w in
  sessions r.2 = sessions w /\ outbox r.2 = outbox w
  /\ (forall p, p <> a -> fs r.2 !! p = fs w !! p).
Proof.
  unfold attach, read_file, write_file. monad.
  destruct (fs w !! a) as [data|]; [|cbn; auto].
  destruct (Text.endswith a ".png"); [cbn; auto|].
  destruct (Text.endswith a ".csv"); [|cbn; auto].
  destruct (Pandas.read_csv data) as [df|e]; [|cbn; auto].
  cbn [fs set_fs]. rewrite lookup_insert_eq. cbn.
  repeat split. intros p Hp. now apply lookup_insert_ne.
Qed.

Lemma fold_attach_missing path : forall attachments msg w,
  path ∈ attachments -> fs w !! path = None ->
  let r := fold_each attachments msg attach w in
  (exists e, r.1 = Raise e) /\ sessions r.2 = sessions w /\ outbox r.2 = outbox w.
Proof.
  induction attachments as [|a rest IH]; intros msg w Hin Hnone; [inversion Hin|].
  cbn [fold_each]. monad.
  destruct (attach_quiet msg a w) as (Hs & Ho & Hfs).
  destruct (decide (a = path)) as [-> | Hne].
  - rewrite attach_missing by exact Hnone. cbn. eauto.
  - destruct (attach msg a w) as [[msg1|e] w1]; cbn [snd] in *.
    + apply elem_of_cons in Hin as [-> | Hin]; [congruence|].
      destruct (IH msg1 w1 Hin) as (He & Hs' & Ho').
      { rewrite Hfs by congruence. exact Hnone. }
      cbn zeta in *. rewrite Hs', Ho'. auto.
    + cbn. eauto.
Qed.

(** X2. A report with a missing attachment is never sent.  If any of
    the attachments is not on disk, [send_email] raises, and it does so
    before an SMTP session is opened: the number of sessions and the
    outbox are as before. *)
Theorem missing_attachment_is_never_sent (E : env) (self : UsageMonitor)
    (subject body : string) (attachments : list string) (path : string) (w : world) :
  path ∈ attachments ->
  fs w !! path = None ->
  let r := send_email E self subject body attachments w in
  (exists e, r.1 = Raise e) /\ sessions r.2 = sessions w /\ outbox r.2 = outbox w.
Proof.
  intros Hin Hnone. rewrite send_email_attach. monad.
  destruct (fold_attach_missing path attachments
              (Message (email self) (Text.join ", " (recipient_emails self))
                       subject [MIMEText body]) w Hin Hnone) as ([e He] & Hs & Ho).
  cbn zeta in *.
  destruct (fold_each attachments _ attach w) as [[m|e'] w1]; cbn in *; [discriminate|].
  eauto.
Qed.

Lemma fold_attach_other : forall attachments msg w,
  Forall (fun p => is_Some (fs w !! p)
                   /\ Text.endswith p ".png" = false
                   /\ Text.endswith p ".csv" = false) attachments ->
  fold_each attachments msg attach w = (Ok msg, w).
Proof.
  induction attachments as [|a rest IH]; intros msg w Hall; [reflexivity|].
  inversion Hall as [|? ? ([data Ha] & Hpng & Hcsv) Hrest]; subst.
  cbn [fold_each]. monad.
  assert (Hstep : attach msg a w = (Ok msg, w)).
  { unfold attach, read_file. monad. now rewrite Ha, Hpng, Hcsv. }
  rewrite Hstep. now apply IH.
Qed.

(** X3. Attachments that are neither .png nor .csv are left out.  When
    every attachment is on disk and none ends in .png or .csv (in
    particular when there is none), [send_email] sends the message with
    the text part only and changes no file. *)
Theorem other_attachments_are_left_out (E : env) (self : UsageMonitor)
    (subject body : string) (attachments : list string) (w : world) :
  Forall (fun p => is_Some (fs w !! p)
                   /\ Text.endswith p ".png" = false
                   /\ Text.endswith p ".csv" = false) attachments ->
  send_email E self subject body attachments w
  = smtp_deliver E
      (Message (email self) (Text.join ", " (recipient_emails self)) subject
               [MIMEText body]) w.
Proof.
  intros Hall. rewrite send_email_attach. monad.
  now rewrite fold_attach_other.
Qed.

(** X4. The timestamp of a sample is read back as the moment it was
    taken.  [get_usage] always returns; its timestamp is the clock
    reading printed by [strftime], and while the clock shows a year
    from 1678 to 2261 - the years pandas' timestamps cover - the
    [to_datetime] of [plot_usage] maps it back to that very second. *)
Theorem timestamp_parses_back (E : env) (self : UsageMonitor) (w : world) :
  let r := get_usage E self w in
  datetime64_year (now r.2) ->
  exists ts ram cpu,
    r.1 = Ok (ts, ram, cpu)
    /\ ts = Clock.strftime (now r.2)
    /\ Pandas.to_datetime ts = Ok (now r.2).
Proof.
  cbn zeta. intros Hy. eexists _, _, _. split; [reflexivity|].
  split; [reflexivity|]. apply CalendarFacts.to_datetime_strftime.
  unfold datetime64_year, four_digit_year in *. lia.
Qed.

(** X5. Appending keeps what was recorded.  After [write_to_csv] on a
    log of samples, reading the log gives the earlier samples, in their
    order, followed by the new one. *)
Theorem append_keeps_earlier_samples (self : UsageMonitor) (w : world)
    (old : list Pandas.row) (ts : string) (ram cpu : Q) :
  fs w !! log_path self = Some (log_text old) ->
  Forall recordable old ->
  recordable (ts, ram, cpu) ->
  let w' := (write_to_csv self ts ram cpu w).2 in
  read_frame self w' = (Ok (old ++ [(ts, ram, cpu)])%list, w').
Proof.
  intros Hold Hrec Hnew w'. subst w'. rewrite write_to_csv_run. cbn [snd].
  rewrite (read_frame_run self _ (log_text old ++ line_of (ts, ram, cpu))).
  2:{ cbn [fs set_fs]. rewrite Hold. apply lookup_insert_eq. }
  rewrite <- LogFacts.log_text_snoc, LogFacts.read_csv_log; [reflexivity|].
  apply Forall_app. split; [exact Hrec | now constructor].
Qed.

(** X6. [plot_usage] writes the chart and nothing else.  When it raises,
    the machine is exactly as before; when it returns, it returns the
    path graph.png and that file exists (whatever was there is
    replaced); no other file is changed, no mail is sent, and the clock
    is not read. *)
Theorem plot_usage_touches_only_chart (E : env) (self : UsageMonitor) (w : world) :
  let r := plot_usage E self w in
  (forall e, r.1 = Raise e -> r.2 = w)
  /\ (forall p, r.1 = Ok p ->
        p = "graph.png" /\ is_Some (fs r.2 !! "graph.png"))
  /\ (forall p, p <> "graph.png" -> fs r.2 !! p = fs w !! p)
  /\ sessions r.2 = sessions w /\ outbox r.2 = outbox w /\ now r.2 = now w.
Proof.
  unfold plot_usage, write_file. monad.
  pose proof (resampled_pure self w) as Hp.
  destruct (resampled self w) as [[pts|e] w1]; cbn in Hp; subst w1; cbn.
  - repeat split; try discriminate.
    + congruence.
    + rewrite lookup_insert_eq. eauto.
    + intros p Hp. now apply lookup_insert_ne.
  - repeat split; try discriminate. 
Qed.

Lemma plot_usage_cases (E : env) (self : UsageMonitor) w :
  plot_usage E self w
  = match (resampled self w).1 with
    | Ok pts => (Ok "graph.png", set_fs (fun m => <["graph.png" := savefig E pts]> m) w)
    | Raise e => (Raise e, w)
    end.
Proof.
  unfold plot_usage, write_file. monad.
  pose proof (resampled_pure self w) as Hp.
  destruct (resampled self w) as [[pts|e] w1]; cbn in Hp; subst w1; reflexivity.
Qed.

Lemma resampled_loads (self : UsageMonitor) w :
  (exists content df s,
     fs w !! log_path self = Some content /\ Pandas.read_csv content = Ok df
     /\ Pandas.index_by_time df = Ok s)
  \/ (exists e, resampled self w = (Raise e, w)).
Proof.
  unfold resampled, read_file. monad.
  destruct (fs w !! log_path self) as [content|]; [|right; eauto].
  destruct (Pandas.read_csv content) as [df|e] eqn:Hdf; [|right; eauto].
  destruct (Pandas.index_by_time df) as [s|e] eqn:Hs; [|right; eauto].
  left. eauto 10.
Qed.

(** X7. A report removes files only once it is delivered.  Whatever the
    state of the disk, [send_email_report] changes no file but the
    chart and the log.  If it returns, exactly one message was added to
    the outbox and chart and log are gone.  If it raises, every file
    that was on disk is still there; the outbox is then as before,
    unless the SMTP session took the message and raised on leaving, in
    which case that one message went out and the files are kept all the
    same. *)
Theorem report_removes_only_after_delivery (E : env) (self : UsageMonitor) (w : world) :
  let r := send_email_report E self w in
  (forall p, p <> "graph.png" -> p <> log_path self -> fs r.2 !! p = fs w !! p)
  /\ match r.1 with
     | Ok _ =>
         (exists msg, outbox r.2 = (outbox w ++ [msg])%list)
         /\ fs r.2 !! "graph.png" = None /\ fs r.2 !! log_path self = None
     | Raise e =>
         (forall p, is_Some (fs w !! p) -> is_Some (fs r.2 !! p))
         /\ (outbox r.2 = outbox w
             \/ smtp E (sessions w) = Lost_after_send e
                /\ exists msg, outbox r.2 = (outbox w ++ [msg])%list)
     end.
Proof.
  cbn zeta.
  destruct (send_email_report_run E self w) as (subject & body & ->).
  set (w1 := log_event (Reported (now w)) w).
  assert (Hkept : forall (p : string) (a b : string),
            is_Some (fs w !! p) ->
            is_Some (<[log_path self := a]> (<["graph.png" := b]> (fs w)) !! p)).
  { intros p a b Hp. rewrite lookup_insert.
    destruct (decide (log_path self = p)); [eauto|].
    rewrite lookup_insert. destruct (decide ("graph.png" = p)); eauto. }
  destruct (resampled_loads self w1) as [(content & df & s & Hc & Hdf & Hs) | [e He]].
  - pose proof (deliver_report_run E self subject body w1 content df s Hc Hdf Hs) as H.
    cbn zeta in H. change (sessions w1) with (sessions w) in H.
    change (fs w1) with (fs w) in *. change (outbox w1) with (outbox w) in *.
    destruct (smtp E (sessions w)) as [|e|e].
    + destruct H as (H1 & H2 & H3 & _). rewrite H1, H2, H3. split; [|split; [|split]].
      * intros p Hp1 Hp2.
        now rewrite !lookup_delete_ne, !lookup_insert_ne by congruence.
      * eauto.
      * rewrite lookup_delete_ne by (apply not_eq_sym, log_path_not_chart).
        apply lookup_delete_eq.
      * apply lookup_delete_eq.
    + destruct H as (H1 & H2 & H3 & _). rewrite H1, H2, H3. split; [|split].
      * intros p Hp1 Hp2. now rewrite !lookup_insert_ne by congruence.
      * intros p Hp. now apply Hkept.
      * now left.
    + destruct H as (H1 & H2 & H3 & _). rewrite H1, H2, H3. split; [|split].
      * intros p Hp1 Hp2. now rewrite !lookup_insert_ne by congruence.
      * intros p Hp. now apply Hkept.
      * right. eauto.
  - unfold deliver_report. monad. rewrite plot_usage_cases, He. cbn.
    split; [reflexivity|]. split; [auto | now left].
Qed.

Lemma checks_app a b : checks (a ++ b) = (checks a ++ checks b)%list.
Proof.
  induction a as [|[t|t] a IH]; cbn [app checks]; [reflexivity | | exact IH].
  cbn. now rewrite IH.
Qed.

Lemma iteration_trace_extends (E : env) m w :
  exists new, trace (iteration E m w).2 = (new ++ trace w)%list.
Proof.
  destruct (TriggerFacts.tick_run E m w) as (t & w1 & Htick & Htr & _ & _).
  rewrite (iteration_run E m w t w1 Htick).
  destruct (String.eqb _ _).
  - rewrite TriggerFacts.send_email_report_trace.
    rewrite Htr. now exists [Reported (now w1); Checked t].
  - cbn [snd]. rewrite Htr. now exists [Checked t].
Qed.

Lemma loop_trace_extends (E : env) n : forall m w,
  exists new, trace (loop E n m w).2 = (new ++ trace w)%list.
Proof.
  induction n as [|n IH]; intros m w; [now exists []|].
  cbn [loop]. monad.
  destruct (iteration_trace_extends E m w) as [new1 H1].
  destruct (iteration E m w) as [[m1|e] w1]; cbn [snd] in *.
  - destruct (IH m1 w1) as [new2 H2]. exists (new2 ++ new1)%list.
    now rewrite H2, H1, List.app_assoc.
  - now exists new1.
Qed.

(** What a tick does to the machine. *)
Lemma tick_records (E : env) m w :
  exists t w1,
    tick E m w = (Ok t, w1)
    /\ fs w1 = <[log_path m := default "" (fs w !! log_path m)
                                ++ line_of (sample_of (next_reading E w))]> (fs w)
    /\ outbox w1 = outbox w /\ sessions w1 = sessions w
    /\ trace w1 = Checked t :: trace w.
Proof. eexists _, _. split; [reflexivity|]. cbn. auto. Qed.

(** X8. A run away from the stop second only records.  If in [n] passes
    of the loop no test of the clock shows 23:59:59, the loop returns
    with the monitor unchanged, the log of the stored day has grown by
    exactly [n] sample lines, no other file is touched, no SMTP session
    is opened and nothing is sent. *)
Theorem quiet_run_records_every_pass (E : env) (n : nat) : forall (m : UsageMonitor) (w : world),
  Forall (fun t => t mod Clock.DAY <> 86399) (checks (trace (loop E n m w).2)) ->
  exists rs : list reading,
    length rs = n
    /\ (loop E n m w).1 = Ok m
    /\ default "" (fs (loop E n m w).2 !! log_path m)
       = default "" (fs w !! log_path m) ++ log_text (map sample_of rs)
    /\ (forall p, p <> log_path m -> fs (loop E n m w).2 !! p = fs w !! p)
    /\ outbox (loop E n m w).2 = outbox w
    /\ sessions (loop E n m w).2 = sessions w.
Proof.
  induction n as [|n IH]; intros m w Hquiet.
  - exists []. cbn. rewrite TextFacts.app_nil_r. repeat split; reflexivity.
  - destruct (tick_records E m w) as (t & w1 & Htick & Hfs & Hout & Hses & Htr).
    set (r := next_reading E w) in *.
    assert (Hstep : loop E (S n) m w
                    = match iteration E m w with
                      | (Ok m1, w2) => loop E n m1 w2
                      | (Raise e, w2) => (Raise e, w2)
                      end) by reflexivity.
    assert (Hin : t ∈ checks (trace (loop E (S n) m w).2)).
    { rewrite Hstep.
      assert (Hit : t ∈ checks (trace (iteration E m w).2)).
      { rewrite (iteration_run E m w t w1 Htick).
        destruct (String.eqb _ _).
        - rewrite TriggerFacts.send_email_report_trace.
          rewrite Htr. cbn. left.
        - cbn [snd]. rewrite Htr. cbn. left. }
      destruct (iteration E m w) as [[m1|e] w2]; cbn [snd] in Hit; [|exact Hit].
      destruct (loop_trace_extends E n m1 w2) as [new ->].
      rewrite checks_app. apply elem_of_app. now right. }
    assert (Hnot : String.eqb (Clock.strftime_time t) STOP_TIME = false).
    { rewrite TriggerFacts.stop_time_spec. apply Z.eqb_neq.
      exact (proj1 (Forall_forall _ _) Hquiet t Hin). }
    assert (Hiter : iteration E m w = (Ok m, w1)).
    { now rewrite (iteration_run E m w t w1 Htick), Hnot. }
    rewrite Hstep, Hiter in *.
    destruct (IH m w1 Hquiet) as (rs & Hlen & Hok & Hlog & Hother & Ho & Hs).
    exists (r :: rs). split; [cbn; lia|]. split; [exact Hok|].
    split; [|split; [|split]].
    + rewrite Hlog, Hfs, lookup_insert_eq. cbn [map].
      change (default "" (Some ?x)) with x.
      now rewrite LogFacts.log_text_cons, TextFacts.app_assoc.
    + intros p Hp. rewrite (Hother p Hp), Hfs. now apply lookup_insert_ne.
    + congruence.
    + congruence.
Qed.

Lemma app_inv_tail_str (a b s : string) : a ++ s = b ++ s -> a = b.
Proof.
  revert b. induction a as [|x a IH]; intros [|y b] H.
  - reflexivity.
  - apply (f_equal String.length) in H. cbn in H.
    rewrite TextFacts.length_app in H. lia.
  - apply (f_equal String.length) in H. cbn in H.
    rewrite TextFacts.length_app in H. lia.
  - cbn in H. injection H as -> H. f_equal. now apply IH.
Qed.

Lemma date_of_midnight t : Clock.date_of (midnight t) = Clock.date_of t.
Proof. unfold midnight, Clock.date_of, Clock.DAY. apply Z.div_mul. lia. Qed.

Lemma strftime_midnight t :
  Clock.strftime (midnight t) = Clock.strftime_date t ++ " 00:00:00".
Proof.
  unfold Clock.strftime. f_equal.
  - unfold Clock.strftime_date. now rewrite date_of_midnight.
  - f_equal. unfold Clock.strftime_time, Clock.second_of_day, midnight, Clock.DAY.
    rewrite Z.mod_mul by lia. reflexivity.
Qed.

Lemma strftime_date_inj t1 t2 :
  four_digit_year t1 -> four_digit_year t2 ->
  Clock.strftime_date t1 = Clock.strftime_date t2 ->
  Clock.date_of t1 = Clock.date_of t2.
Proof.
  intros H1 H2 Heq.
  assert (Hm1 : four_digit_year (midnight t1))
    by (unfold four_digit_year, year_of in *; now rewrite date_of_midnight).
  assert (Hm2 : four_digit_year (midnight t2))
    by (unfold four_digit_year, year_of in *; now rewrite date_of_midnight).
  pose proof (CalendarFacts.to_datetime_strftime _ Hm1) as P1.
  pose proof (CalendarFacts.to_datetime_strftime _ Hm2) as P2.
  rewrite strftime_midnight in P1, P2. rewrite Heq in P1.
  rewrite P1 in P2. injection P2 as P2. unfold midnight, Clock.DAY in P2. lia.
Qed.

(** X9. The log file is named by the stored day.  For clock readings
    with four-digit years: a monitor created when the clock read one
    moment and a monitor created when it read another write to the same
    log file exactly when the two moments fall on the same calendar
    day, and when they do not, a sample written by the first leaves the
    log file of the second as it is.  The day in question is the one
    stored at creation, whatever the date of the samples written
    afterwards. *)
Theorem log_file_names_the_day (E : env) (e1 p1 e2 p2 : string)
    (r1 r2 : list string) (w1 w2 : world) :
  let c1 := __init__ E e1 p1 r1 w1 in
  let c2 := __init__ E e2 p2 r2 w2 in
  four_digit_year (now c1.2) -> four_digit_year (now c2.2) ->
  exists m1 m2,
    c1.1 = Ok m1 /\ c2.1 = Ok m2
    /\ (log_path m1 = log_path m2
        <-> Clock.date_of (now c1.2) = Clock.date_of (now c2.2))
    /\ (Clock.date_of (now c1.2) <> Clock.date_of (now c2.2) ->
        forall ts ram cpu w,
          fs (write_to_csv m1 ts ram cpu w).2 !! log_path m2 = fs w !! log_path m2).
Proof.
  cbn zeta. unfold __init__, datetime_now. monad. cbn [fst snd now].
  set (t1 := now w1 + elapse E (clock_reads w1)).
  set (t2 := now w2 + elapse E (clock_reads w2)).
  intros H1 H2. eexists _, _. split; [reflexivity|]. split; [reflexivity|].
  assert (Hiff : log_path (Monitor e1 p1 r1 (Clock.strftime_date t1))
                 = log_path (Monitor e2 p2 r2 (Clock.strftime_date t2))
                 <-> Clock.date_of t1 = Clock.date_of t2).
  { unfold log_path. cbn [today]. split.
    - intros H. apply strftime_date_inj; [assumption..|].
      cbn in H. injection H as H. now apply app_inv_tail_str in H.
    - intros H. unfold Clock.strftime_date. now rewrite H. }
  split; [exact Hiff|].
  intros Hne ts ram cpu w. rewrite write_to_csv_run. cbn [snd fs set_fs].
  apply lookup_insert_ne. intros Heq. now apply Hne, Hiff.
Qed.

(** X11. A minute with one sample shows that sample.  If exactly one
    sample falls in a marked minute, the chart has the point of that
    minute with the RAM and CPU values of the sample (as reduced
    fractions); and the chart has as many points as there are whole
    minutes from the first to the last sample. *)
Theorem lone_sample_is_charted_as_sampled (s : Pandas.series) (b : Z) (r : Z * Q * Q) :
  b ∈ minute_marks (Pandas.first_bin s) (Pandas.last_bin s) ->
  members b s = [r] ->
  (b, Some (Qred r.1.2), Some (Qred r.2)) ∈ Pandas.resample_mean s
  /\ length (Pandas.resample_mean s)
     = Z.to_nat ((Pandas.last_bin s - Pandas.first_bin s) / 60 + 1).
Proof.
  intros Hb Hm.
  assert (Hne : s <> []) by (intros ->; discriminate).
  rewrite ResampleFacts.resample_mean_buckets by exact Hne. split.
  - apply list_elem_of_fmap. exists b. split; [|exact Hb].
    unfold bucket_point. rewrite Hm. cbn [fmap list_fmap arithmetic_mean length].
    assert (Hone : forall x : Q, Qred x = Qred (Qsum [x] / inject_Z (Z.of_nat 1))).
    { intros x. apply Qred_complete. unfold Qsum. cbn [foldr].
      change (inject_Z (Z.of_nat 1)) with 1%Q. field. }
    now rewrite <- !Hone.
  - unfold minute_marks. now rewrite !length_fmap, length_seq.
Qed.

Lemma step_rows t c : exists more, Pandas.rows (Pandas.step t c) = (Pandas.rows t ++ more)%list.
Proof.
  destruct t as [st fld rec rows].
  unfold Pandas.step, Pandas.start_record, Pandas.start_field, Pandas.end_line,
    Pandas.end_field, Pandas.push_char, Pandas.goto.
  cbn [Pandas.st Pandas.fld Pandas.rec Pandas.rows].
  destruct st; repeat (destruct (Ascii.eqb c _));
    cbn [Pandas.rows]; first [now exists [] | eexists; reflexivity | idtac].
  all: exists []; now rewrite List.app_nil_r.
Qed.

Lemma run_rows s : forall t,
  exists more, Pandas.rows (Pandas.run t s) = (Pandas.rows t ++ more)%list.
Proof.
  induction s as [|c s IH]; intros t; cbn [Pandas.run].
  - exists []. now rewrite List.app_nil_r.
  - destruct (IH (Pandas.step t c)) as [m2 H2]. destruct (step_rows t c) as [m1 H1].
    exists (m1 ++ m2)%list. now rewrite H2, H1, List.app_assoc.
Qed.

Lemma finish_rows t rs :
  Pandas.finish t = Ok rs -> exists more, rs = (Pandas.rows t ++ more)%list.
Proof.
  unfold Pandas.finish, Pandas.end_line, Pandas.end_field.
  destruct (Pandas.st t); cbn [Pandas.rows Pandas.rec Pandas.fld];
    intros [= <-]; first [exists []; now rewrite List.app_nil_r | eexists; reflexivity].
Qed.

(** A text that starts with the header line does not read as samples. *)
Lemma read_csv_headed rest :
  exists e, Pandas.read_csv ("Timestamp,RAM,CPU" ++ Pandas.NL ++ rest) = Raise e.
Proof.
  unfold Pandas.read_csv, Pandas.tokenize.
  change ("Timestamp,RAM,CPU" ++ Pandas.NL ++ rest)
    with (("Timestamp,RAM,CPU" ++ Pandas.NL) ++ rest).
  rewrite CsvFacts.run_app.
  change (Pandas.run Pandas.init ("Timestamp,RAM,CPU" ++ Pandas.NL))
    with (Pandas.Tok Pandas.START_RECORD "" [] [["Timestamp"; "RAM"; "CPU"]]).
  destruct (run_rows rest (Pandas.Tok Pandas.START_RECORD "" []
                             [["Timestamp"; "RAM"; "CPU"]])) as [m1 H1].
  destruct (Pandas.finish _) as [rs|e] eqn:Hfin; [|eauto].
  apply finish_rows in Hfin as [m2 ->]. rewrite H1. cbn. eauto.
Qed.

Lemma deliver_headed (E : env) (self : UsageMonitor) subject body w rest :
  fs w !! log_path self = Some ("Timestamp,RAM,CPU" ++ Pandas.NL ++ rest) ->
  exists e, deliver_report E self subject body w = (Raise e, w).
Proof.
  intros Hlog. destruct (read_csv_headed rest) as [e He]. exists e.
  unfold deliver_report. monad. rewrite plot_usage_cases.
  unfold resampled, read_file. monad. now rewrite Hlog, He.
Qed.

(** X12. A log that starts with the header row cannot be reported.
    When the log begins with the line Timestamp,RAM,CPU - the form
    [send_email] leaves it in - [send_email_report] raises before
    anything is written or sent: the files, the number of SMTP sessions
    and the outbox are as before. *)
Theorem headed_log_cannot_be_reported (E : env) (self : UsageMonitor) (w : world)
    (rest : string) :
  fs w !! log_path self = Some ("Timestamp,RAM,CPU" ++ Pandas.NL ++ rest) ->
  let r := send_email_report E self w in
  (exists e, r.1 = Raise e)
  /\ fs r.2 = fs w /\ sessions r.2 = sessions w /\ outbox r.2 = outbox w.
Proof.
  intros Hlog. cbn zeta.
  destruct (send_email_report_run E self w) as (subject & body & ->).
  destruct (deliver_headed E self subject body (log_event (Reported (now w)) w) rest Hlog)
    as [e ->].
  cbn. eauto.
Qed.

(** X13. A failed delivery cannot be retried.  After
    [send_email_report] has failed at the mail server - before the
    message went out or on leaving the session - a second call on the
    machine it left raises as well, whatever the mail server would now
    answer, without opening a session and without changing a file: the
    first attempt has rewritten the log with a header row. *)
Theorem failed_report_cannot_be_retried (E : env) (self : UsageMonitor) (w : world)
    (content : string) (df : Pandas.frame) (s : Pandas.series) (e : exn) :
  fs w !! log_path self = Some content ->
  Pandas.read_csv content = Ok df ->
  Pandas.index_by_time df = Ok s ->
  raised (smtp E (sessions w)) = Some e ->
  let w' := (send_email_report E self w).2 in
  let r := send_email_report E self w' in
  (send_email_report E self w).1 = Raise e
  /\ (exists e', r.1 = Raise e')
  /\ fs r.2 = fs w' /\ sessions r.2 = sessions w' /\ outbox r.2 = outbox w'.
Proof.
  intros Hc Hdf Hs Hsmtp w'.
  assert (Hfirst : (send_email_report E self w).1 = Raise e
                   /\ fs w' !! log_path self = Some (Pandas.to_csv df)).
  { subst w'. destruct (send_email_report_run E self w) as (subject & body & ->).
    pose proof (deliver_report_run E self subject body
                  (log_event (Reported (now w)) w) content df s Hc Hdf Hs) as H.
    cbn zeta in H. cbn [sessions log_event] in H.
    destruct (smtp E (sessions w)) as [|e0|e0]; [discriminate Hsmtp| |];
      injection Hsmtp as ->; destruct H as (-> & -> & _);
      (split; [reflexivity | apply lookup_insert_eq]). }
  destruct Hfirst as [Hraise Hlog]. split; [exact Hraise|]. cbn zeta.
  destruct (send_email_report_run E self w') as (subject & body & ->).
  destruct (deliver_headed E self subject body (log_event (Reported (now w')) w') _ Hlog)
    as [e' ->].
  cbn. eauto.
Qed.


(* ===================================================================== *)
(** * The further properties at work on the example machine *)
(* ===================================================================== *)

Lemma report_carries_chart_and_headed_log_witness :
  smtp Example.an_env (sessions Example.a_logged_world) = Delivered
  /\ exists body,
       outbox (send_email_report Example.an_env Example.a_monitor
                 Example.a_logged_world).2
       = [Message "monitor@example.org" "ops@example.org"
            "Daily CPU and RAM Usage Report | i-Tips"
            [MIMEText body;
             MIMEImage "graph.png" "PNG";
             MIMEApplication "usage_2024-01-01.csv"
               ("Timestamp,RAM,CPU" ++ Pandas.NL
                ++ "2024-01-01 09:00:00,40.0,10.0" ++ Pandas.NL
                ++ "2024-01-01 09:00:30,60.0,20.0" ++ Pandas.NL)]].
Proof.
  split; [reflexivity|].
  exact (report_carries_chart_and_headed_log Example.an_env Example.a_monitor
           Example.a_logged_world _ _ _ eq_refl scenario_frame scenario_series eq_refl).
Defined.

Lemma missing_attachment_is_never_sent_witness :
  fs Example.a_world_with_notes !! "graph.png" = None
  /\ let r := send_email Example.an_env Example.a_monitor "subject" "body"
                ["notes.txt"; "graph.png"] Example.a_world_with_notes in
     (exists e, r.1 = Raise e)
     /\ sessions r.2 = sessions Example.a_world_with_notes
     /\ outbox r.2 = outbox Example.a_world_with_notes.
Proof.
  split; [reflexivity|].
  apply (missing_attachment_is_never_sent Example.an_env Example.a_monitor
           "subject" "body" ["notes.txt"; "graph.png"] "graph.png"
           Example.a_world_with_notes); [|reflexivity].
  right. left.
Defined.

Lemma other_attachments_are_left_out_witness :
  send_email Example.an_env Example.a_monitor "subject" "body" ["notes.txt"]
    Example.a_world_with_notes
  = smtp_deliver Example.an_env
      (Message "monitor@example.org" "ops@example.org" "subject" [MIMEText "body"])
      Example.a_world_with_notes.
Proof.
  apply (other_attachments_are_left_out Example.an_env Example.a_monitor
           "subject" "body" ["notes.txt"] Example.a_world_with_notes).
  constructor; [|constructor].
  split; [exists "hello"; reflexivity | split; reflexivity].
Defined.

Lemma example_year : year_of Example.nine = 2024.
Proof. vm_compute. reflexivity. Qed.

Lemma timestamp_parses_back_witness :
  exists ts ram cpu,
    (get_usage Example.an_env Example.a_monitor (Example.a_world ∅ Example.nine)).1
    = Ok (ts, ram, cpu)
    /\ ts = Clock.strftime Example.nine
    /\ Pandas.to_datetime ts = Ok Example.nine.
Proof.
  apply (timestamp_parses_back Example.an_env Example.a_monitor
           (Example.a_world ∅ Example.nine)).
  unfold datetime64_year.
  change (year_of _) with (year_of Example.nine). rewrite example_year. lia.
Defined.

Lemma append_keeps_earlier_samples_witness :
  let new := sample_of (Example.nine + 60, 500%N, 300%N) in
  let w' := (write_to_csv Example.a_monitor new.1.1 new.1.2 new.2
               Example.a_logged_world).2 in
  read_frame Example.a_monitor w'
  = (Ok (map sample_of Example.two_samples ++ [new])%list, w').
Proof.
  apply (append_keeps_earlier_samples Example.a_monitor Example.a_logged_world
           (map sample_of Example.two_samples)).
  - reflexivity.
  - apply LogFacts.recordable_samples.
  - apply (LogFacts.recordable_sample_of (Example.nine + 60, 500%N, 300%N)).
Defined.

Lemma quiet_run_records_every_pass_witness :
  exists rs : list reading,
    length rs = 3%nat
    /\ (loop Example.an_env 3 Example.a_monitor (Example.a_world ∅ Example.nine)).1
       = Ok Example.a_monitor
    /\ default "" (fs (loop Example.an_env 3 Example.a_monitor
                         (Example.a_world ∅ Example.nine)).2
                     !! log_path Example.a_monitor)
       = "" ++ log_text (map sample_of rs).
Proof.
  destruct (quiet_run_records_every_pass Example.an_env 3 Example.a_monitor
              (Example.a_world ∅ Example.nine)) as (rs & H1 & H2 & H3 & _).
  - vm_compute. repeat constructor; discriminate.
  - exists rs. auto.
Defined.

Lemma log_file_names_the_day_witness :
  exists m1 m2,
    (__init__ Example.an_env "a" "b" [] (Example.a_world ∅ Example.nine)).1 = Ok m1
    /\ (__init__ Example.an_env "c" "d" []
          (Example.a_world ∅ (Example.nine + 86400))).1 = Ok m2
    /\ log_path m1 <> log_path m2
    /\ forall ts ram cpu w,
         fs (write_to_csv m1 ts ram cpu w).2 !! log_path m2 = fs w !! log_path m2.
Proof.
  destruct (log_file_names_the_day Example.an_env "a" "b" "c" "d" [] []
              (Example.a_world ∅ Example.nine)
              (Example.a_world ∅ (Example.nine + 86400)))
    as (m1 & m2 & H1 & H2 & Hiff & Hother).
  - unfold four_digit_year.
    assert (H : year_of (now (__init__ Example.an_env "a" "b" []
                                (Example.a_world ∅ Example.nine)).2) = 2024)
      by (vm_compute; reflexivity).
    rewrite H. lia.
  - unfold four_digit_year.
    assert (H : year_of (now (__init__ Example.an_env "c" "d" []
                                (Example.a_world ∅ (Example.nine + 86400))).2) = 2024)
      by (vm_compute; reflexivity).
    rewrite H. lia.
  - assert (Hne : Clock.date_of (now (__init__ Example.an_env "a" "b" []
                                       (Example.a_world ∅ Example.nine)).2)
                  <> Clock.date_of (now (__init__ Example.an_env "c" "d" []
                                           (Example.a_world ∅ (Example.nine + 86400))).2))
      by (vm_compute; discriminate).
    exists m1, m2. split; [exact H1|]. split; [exact H2|]. split.
    + intros Heq. apply Hne, Hiff, Heq.
    + exact (Hother Hne).
Defined.

Lemma lone_sample_is_charted_as_sampled_witness :
  (Example.nine, Some (40 # 1)%Q, Some (10 # 1)%Q)
    ∈ Pandas.resample_mean [(Example.nine + 7, (400 # 10)%Q, (100 # 10)%Q)].
Proof.
  apply (lone_sample_is_charted_as_sampled
           [(Example.nine + 7, (400 # 10)%Q, (100 # 10)%Q)] Example.nine
           (Example.nine + 7, (400 # 10)%Q, (100 # 10)%Q)).
  - vm_compute. left.
  - vm_compute. reflexivity.
Defined.

Lemma headed_log_cannot_be_reported_witness :
  let r := send_email_report Example.an_env Example.a_monitor Example.a_headed_world in
  (exists e, r.1 = Raise e)
  /\ fs r.2 = fs Example.a_headed_world
  /\ sessions r.2 = sessions Example.a_headed_world
  /\ outbox r.2 = outbox Example.a_headed_world.
Proof.
  apply (headed_log_cannot_be_reported Example.an_env Example.a_monitor
           Example.a_headed_world
           ("2024-01-01 09:00:00,40.0,10.0" ++ Pandas.NL)).
  reflexivity.
Defined.

Lemma failed_report_cannot_be_retried_witness :
  let E := Example.a_failing_env in
  let w' := (send_email_report E Example.a_monitor Example.a_logged_world).2 in
  raised (smtp E (sessions Example.a_logged_world)) = Some SMTPException
  /\ exists e', (send_email_report E Example.a_monitor w').1 = Raise e'.
Proof.
  split; [reflexivity|].
  apply (failed_report_cannot_be_retried Example.a_failing_env Example.a_monitor
           Example.a_logged_world _ _ _ SMTPException eq_refl scenario_frame
           scenario_series eq_refl).
Defined.

